(** * SST core: activities, events and links

    A shallow embedding of the event-scheduling substrate of sst-core
    ([activity.h], [event.h], [event.cc], [link.cc]) together with the
    properties claimed about it.

    Machine integers are carried as [Z] with the wrap-around of each C++
    type written out.  Objects that the code reaches through pointers
    (links and queues) live in finite maps indexed by addresses, so that
    aliasing (a self-paired link, the rank's shared TimeVortex) is the
    aliasing of the program. *)

From Stdlib Require Import ZArith Lia Bool List.
From Stdlib Require String.
From stdpp Require Import base option gmap list.

Local Open Scope Z_scope.

(* ===================================================================== *)
(** ** Fixed-width integers *)
(* ===================================================================== *)

(** Conversion to [uint64_t] ([SimTime_t], [Cycle_t], [uintptr_t]). *)
Definition wrap64 (z : Z) : Z := z mod 2 ^ 64.

(** Conversion to [uint32_t]. *)
Definition to_uint32 (z : Z) : Z := z mod 2 ^ 32.

(** Conversion to [int] (32-bit two's complement). *)
Definition to_int32 (z : Z) : Z := (z + 2 ^ 31) mod 2 ^ 32 - 2 ^ 31.

(** [activity.h], default priority settings. *)
Definition THREADSYNCPRIORITY : Z := 20.
Definition SYNCPRIORITY : Z := 25.
Definition STOPACTIONPRIORITY : Z := 30.
Definition CLOCKPRIORITY : Z := 40.
Definition EVENTPRIORITY : Z := 50.
Definition MEMEVENTPRIORITY : Z := 50.
Definition BARRIERPRIORITY : Z := 75.
Definition ONESHOTPRIORITY : Z := 80.
Definition STATISTICCLOCKPRIORITY : Z := 85.
Definition FINALEVENTPRIORITY : Z := 98.
Definition EXITPRIORITY : Z := 99.

(* ===================================================================== *)
(** ** Activity ([activity.h]) *)
(* ===================================================================== *)

Module Activity.

(** The three data members, each a 64-bit unsigned word. *)
Record t : Type := mk {
  delivery_time : Z;
  priority_order : Z;
  queue_order : Z
}.

(** [Activity() : delivery_time(0), priority_order(0), queue_order(0)] *)
Definition new : t := mk 0 0 0.

(** Every member holds a [uint64_t] value. *)
Definition wf (a : t) : Prop :=
  0 <= delivery_time a < 2 ^ 64 /\
  0 <= priority_order a < 2 ^ 64 /\
  0 <= queue_order a < 2 ^ 64.

(** [less<T,P,Q>::operator()(lhs, rhs)] *)
Definition less (T P Q : bool) (lhs rhs : t) : bool :=
  if T && negb (delivery_time lhs =? delivery_time rhs)
  then delivery_time lhs <? delivery_time rhs
  else if P && negb (priority_order lhs =? priority_order rhs)
  then priority_order lhs <? priority_order rhs
  else Q && (queue_order lhs <? queue_order rhs).

(** [greater<T,P,Q>::operator()(lhs, rhs)] *)
Definition greater (T P Q : bool) (lhs rhs : t) : bool :=
  if T && negb (delivery_time lhs =? delivery_time rhs)
  then delivery_time lhs >? delivery_time rhs
  else if P && negb (priority_order lhs =? priority_order rhs)
  then priority_order lhs >? priority_order rhs
  else Q && (queue_order lhs >? queue_order rhs).

(** [setDeliveryTime(SimTime_t time)]: the argument is converted to the
    parameter type. *)
Definition setDeliveryTime (time : Z) (a : t) : t :=
  mk (wrap64 time) (priority_order a) (queue_order a).

Definition getDeliveryTime (a : t) : Z := delivery_time a.

(** [(int)(priority_order >> 32)] *)
Definition getPriority (a : t) : Z :=
  to_int32 (Z.shiftr (priority_order a) 32).

(** [priority_order = (priority_order & 0xFFFFFFFF00000000ul) | (uint64_t)tag]
    with [tag] converted to the parameter type [uint32_t]. *)
Definition setOrderTag (tag : Z) (a : t) : t :=
  mk (delivery_time a)
     (Z.lor (Z.land (priority_order a) 0xFFFFFFFF00000000) (to_uint32 tag))
     (queue_order a).

(** [(uint32_t)(priority_order & 0xFFFFFFFFul)] *)
Definition getOrderTag (a : t) : Z :=
  to_uint32 (Z.land (priority_order a) 0xFFFFFFFF).

Definition getQueueOrder (a : t) : Z := queue_order a.

(** [priority_order = (priority_order & 0x00000000FFFFFFFFul) | (priority << 32)]
    where [priority] is a [uint64_t] and the shift is taken in 64 bits. *)
Definition setPriority (priority : Z) (a : t) : t :=
  mk (delivery_time a)
     (Z.lor (Z.land (priority_order a) 0x00000000FFFFFFFF)
            (wrap64 (Z.shiftl (wrap64 priority) 32)))
     (queue_order a).

(** [setQueueOrder(uint64_t order)] *)
Definition setQueueOrder (order : Z) (a : t) : t :=
  mk (delivery_time a) (priority_order a) (wrap64 order).

(** The sort key read by the comparators. *)
Definition triple (a : t) : Z * Z * Z :=
  (delivery_time a, priority_order a, queue_order a).

(** The key restricted to the fields that [(T, P, Q)] select; a field
    that is not selected contributes the same constant for every
    activity. *)
Definition selected (T P Q : bool) (a : t) : Z * Z * Z :=
  (if T then delivery_time a else 0,
   if P then priority_order a else 0,
   if Q then queue_order a else 0).

End Activity.

(** Lexicographic order on triples, first component most significant:
    the order the specification words describe. *)
Definition lex_lt (x y : Z * Z * Z) : Prop :=
  let '(x1, x2, x3) := x in
  let '(y1, y2, y3) := y in
  x1 < y1 \/ (x1 = y1 /\ (x2 < y2 \/ (x2 = y2 /\ x3 < y3))).


(* ===================================================================== *)
(** ** Event ([event.h], [event.cc]) *)
(* ===================================================================== *)

Module Event.

(** The dynamic class of an event object: the [NullEvent] of [link.cc],
    the [EmptyEvent] of [event.h], or a component's own subclass, whose
    data the core never reads. *)
Inductive class : Type :=
| NullEvent
| EmptyEvent
| UserEvent (payload : Z).

(** An [Event] is an [Activity] with the [uintptr_t] word
    [delivery_info]. *)
Record t : Type := mk {
  activity : Activity.t;
  delivery_info : Z;
  cls : class
}.

(** [Event() : Activity(), delivery_info(0) { setPriority(EVENTPRIORITY); }] *)
Definition new (c : class) : t :=
  mk (Activity.setPriority EVENTPRIORITY Activity.new) 0 c.

Definition setDeliveryTime (time : Z) (e : t) : t :=
  mk (Activity.setDeliveryTime time (activity e)) (delivery_info e) (cls e).

Definition getDeliveryTime (e : t) : Z :=
  Activity.getDeliveryTime (activity e).

Definition getPriority (e : t) : Z := Activity.getPriority (activity e).

Definition getOrderTag (e : t) : Z := Activity.getOrderTag (activity e).

Definition setQueueOrder (order : Z) (e : t) : t :=
  mk (Activity.setQueueOrder order (activity e)) (delivery_info e) (cls e).

(** [setDeliveryInfo(LinkId_t tag, uintptr_t delivery_info)
      { setOrderTag(tag); this->delivery_info = delivery_info; }] *)
Definition setDeliveryInfo (tag : Z) (info : Z) (e : t) : t :=
  mk (Activity.setOrderTag tag (activity e)) info (cls e).

(** [getDeliveryLink()]: the word read back as a link address. *)
Definition getDeliveryLink (e : t) : Z := delivery_info e.

(** [getTag()] *)
Definition getTag (e : t) : Z := getOrderTag e.

(** [execute()]: the handler stored in [delivery_info] is called, with
    the event itself, or with [nullptr] by a [NullEvent] (which then
    deletes itself).  The result is the handler's address and its
    argument. *)
Definition execute (e : t) : Z * option t :=
  match cls e with
  | NullEvent => (delivery_info e, None)
  | _ => (delivery_info e, Some e)
  end.

(** What a send leaves alone: the class, the payload and the priority
    half of the packed word. *)
Definition same_object (e e' : t) : Prop :=
  cls e' = cls e /\ getPriority e' = getPriority e.

End Event.

(* ===================================================================== *)
(** ** The queue family *)
(* ===================================================================== *)

(** Addresses of heap objects. *)
Definition loc : Type := Z.

Module ActivityQueue.

(** Modelled from the spec: the queue classes ([timeVortex.h],
    [pollingLinkQueue.h], [initQueue.h] are not among the sources).  The
    three variants share the contract [insert], [front], [pop], [empty]
    that [link.cc] calls.  The TimeVortex keeps its items in the total
    order of [less<true,true,true>] and stamps each item with its
    insertion counter; the polling queue and the init queue append at
    the tail and serve from the head.  The delivery-time guard on a
    served item is the caller's ([Link::recv], [Link::recvUntimedData]). *)
Inductive t : Type :=
| TimeVortex (data : list Event.t) (insertOrder : Z)
| PollingLinkQueue (data : list Event.t)
| InitQueue (data : list Event.t).

Definition data (q : t) : list Event.t :=
  match q with
  | TimeVortex d _ => d
  | PollingLinkQueue d => d
  | InitQueue d => d
  end.

Definition with_data (d : list Event.t) (q : t) : t :=
  match q with
  | TimeVortex _ n => TimeVortex d n
  | PollingLinkQueue _ => PollingLinkQueue d
  | InitQueue _ => InitQueue d
  end.

(** Insertion before the first item that the new one precedes. *)
Fixpoint insert_sorted (e : Event.t) (l : list Event.t) : list Event.t :=
  match l with
  | [] => [e]
  | x :: l' =>
      if Activity.less true true true (Event.activity e) (Event.activity x)
      then e :: x :: l'
      else x :: insert_sorted e l'
  end.

Definition insert (e : Event.t) (q : t) : t :=
  match q with
  | TimeVortex d n =>
      TimeVortex (insert_sorted (Event.setQueueOrder n e) d) (wrap64 (n + 1))
  | PollingLinkQueue d => PollingLinkQueue (d ++ [e])
  | InitQueue d => InitQueue (d ++ [e])
  end.

Definition empty (q : t) : bool :=
  match data q with
  | [] => true
  | _ :: _ => false
  end.

Definition front (q : t) : option Event.t := head (data q).

Definition pop (q : t) : t := with_data (tail (data q)) q.

(** The item as the queue holds it: a TimeVortex has written its
    insertion counter into [queue_order], the other queues hold the item
    as it was given. *)
Definition admitted (e : Event.t) (q : t) : Event.t :=
  match q with
  | TimeVortex _ n => Event.setQueueOrder n e
  | _ => e
  end.

End ActivityQueue.

(* ===================================================================== *)
(** ** Link ([link.cc]) *)
(* ===================================================================== *)

(** The link's kind, [Link::Type_t]. *)
Inductive Type_t : Type := POLL | HANDLER | SYNC | UNINITIALIZED.

(** The link's phase, [Link::Mode_t]. *)
Inductive Mode_t : Type := INIT | RUN | COMPLETE.

#[global] Instance Type_t_eq_dec : EqDecision Type_t.
Proof. solve_decision. Defined.

#[global] Instance Mode_t_eq_dec : EqDecision Mode_t.
Proof. solve_decision. Defined.

(** Modelled from the spec: [LinkId_t], declared in [sst_types.h] (not
    among the sources); the data model gives [tag : i64]. *)
Definition LinkId_t (z : Z) : Z := (z + 2 ^ 63) mod 2 ^ 64 - 2 ^ 63.

(** The data members of a [Link] that [link.cc] initialises, in its
    order.  [current_time] is a reference to the simulation's
    [currentSimCycle] and is read from the simulation state.
    [profile_tools] is the list of (tool, key) pairs of a
    [LinkSendProfileToolList], or null. *)
Record Link : Type := mkLink {
  send_queue : option loc;
  delivery_info : Z;
  defaultTimeBase : Z;
  latency : Z;
  pair_link : option loc;
  type : Type_t;
  mode : Mode_t;
  tag : Z;
  profile_tools : option (list (Z * Z))
}.

(** [Link::Link(LinkId_t tag)] *)
Definition Link_of_tag (tag : Z) : Link :=
  mkLink None 0 0 1 None UNINITIALIZED INIT (LinkId_t tag) None.

(** [Link::Link()] *)
Definition Link_default : Link :=
  mkLink None 0 0 1 None UNINITIALIZED INIT (LinkId_t (-1)) None.

Definition set_send_queue (q : option loc) (L : Link) : Link :=
  mkLink q (delivery_info L) (defaultTimeBase L) (latency L) (pair_link L)
         (type L) (mode L) (tag L) (profile_tools L).

Definition set_delivery_info (i : Z) (L : Link) : Link :=
  mkLink (send_queue L) (wrap64 i) (defaultTimeBase L) (latency L)
         (pair_link L) (type L) (mode L) (tag L) (profile_tools L).

Definition set_latency (lat : Z) (L : Link) : Link :=
  mkLink (send_queue L) (delivery_info L) (defaultTimeBase L) (wrap64 lat)
         (pair_link L) (type L) (mode L) (tag L) (profile_tools L).

Definition set_pair_link (p : option loc) (L : Link) : Link :=
  mkLink (send_queue L) (delivery_info L) (defaultTimeBase L) (latency L) p
         (type L) (mode L) (tag L) (profile_tools L).

Definition set_type (k : Type_t) (L : Link) : Link :=
  mkLink (send_queue L) (delivery_info L) (defaultTimeBase L) (latency L)
         (pair_link L) k (mode L) (tag L) (profile_tools L).

Definition set_mode (m : Mode_t) (L : Link) : Link :=
  mkLink (send_queue L) (delivery_info L) (defaultTimeBase L) (latency L)
         (pair_link L) (type L) m (tag L) (profile_tools L).

(** A heap cell for a queue: allocated and not yet deleted, or deleted. *)
Inductive Cell : Type :=
| Live (q : ActivityQueue.t)
| Freed.

(** Modelled from the spec: the [Simulation] singleton
    ([simulation_impl.h] is not among the sources), which exposes the
    simulated clock, [untimed_phase], [untimed_msg_count] and the rank's
    TimeVortex; the two untimed counters are kept as unbounded integers.
    The state also holds the heap of links, the heap of queues, and the
    record of the calls made to profile tools. *)
Record Simulation : Type := mkSim {
  currentSimCycle : Z;
  untimed_phase : Z;
  untimed_msg_count : Z;
  timeVortex : loc;
  links : gmap loc Link;
  queues : gmap loc Cell;
  profile_log : list (Z * Z * Event.t)
}.

Definition with_links (m : gmap loc Link) (s : Simulation) : Simulation :=
  mkSim (currentSimCycle s) (untimed_phase s) (untimed_msg_count s)
        (timeVortex s) m (queues s) (profile_log s).

Definition with_queues (m : gmap loc Cell) (s : Simulation) : Simulation :=
  mkSim (currentSimCycle s) (untimed_phase s) (untimed_msg_count s)
        (timeVortex s) (links s) m (profile_log s).

Definition with_untimed_phase (p : Z) (s : Simulation) : Simulation :=
  mkSim (currentSimCycle s) p (untimed_msg_count s)
        (timeVortex s) (links s) (queues s) (profile_log s).

Definition with_untimed_msg_count (n : Z) (s : Simulation) : Simulation :=
  mkSim (currentSimCycle s) (untimed_phase s) n
        (timeVortex s) (links s) (queues s) (profile_log s).

Definition with_currentSimCycle (c : Z) (s : Simulation) : Simulation :=
  mkSim c (untimed_phase s) (untimed_msg_count s)
        (timeVortex s) (links s) (queues s) (profile_log s).

Definition with_profile_log (l : list (Z * Z * Event.t)) (s : Simulation)
  : Simulation :=
  mkSim (currentSimCycle s) (untimed_phase s) (untimed_msg_count s)
        (timeVortex s) (links s) (queues s) l.

(* ===================================================================== *)
(** ** Outcomes of a member function *)
(* ===================================================================== *)

(** The calls to [Output::fatal] in [link.cc] and [event.cc], by message:
    - [SendRecvDuringInit]: Trying to send or recv from link during
      initialization.  Send and Recv cannot be called before setup.
    - [SendRecvDuringComplete]: Trying to call send or recv during
      complete phase.
    - [RecvOnHandlerLink]: Cannot call recv on a Link with an event
      handler installed (non-polling link.
    - [UntimedDuringRun]: Trying to call sendUntimedData/sendInitData or
      recvUntimedData/recvInitData during the run phase.
    - [SetFunctorOnPollingLink]: Cannot call setFunctor on a Polling Link
    - [CloneNotImplemented]: Called clone() on an Event that doesn't
      implement it. *)
Inductive FatalError : Type :=
| SendRecvDuringInit
| SendRecvDuringComplete
| RecvOnHandlerLink
| UntimedDuringRun
| SetFunctorOnPollingLink
| CloneNotImplemented.

(** Undefined behaviour of the C++ program. *)
Inductive UB : Type :=
| NullDereference
| DanglingPointer
| FrontOfEmptyQueue.

(** Modelled from the spec: [Output::fatal] ([output.h] is not among the
    sources) terminates the process.  [Fatal e s] carries the state [s]
    in which the process was terminated, [Ok a s] the returned value and
    the state after the call. *)
Inductive Outcome (A : Type) : Type :=
| Ok (a : A) (s : Simulation)
| Fatal (e : FatalError) (s : Simulation)
| Undefined (u : UB)
| OutOfFuel.

Arguments Ok {A} a s.
Arguments Fatal {A} e s.
Arguments Undefined {A} u.
Arguments OutOfFuel {A}.

Definition M (A : Type) : Type := Simulation -> Outcome A.

Definition ret {A : Type} (a : A) : M A := fun s => Ok a s.

Definition bind {A B : Type} (c : M A) (k : A -> M B) : M B :=
  fun s =>
    match c s with
    | Ok a s' => k a s'
    | Fatal e s' => Fatal e s'
    | Undefined u => Undefined u
    | OutOfFuel => OutOfFuel
    end.

Declare Scope sst_scope.
Delimit Scope sst_scope with sst.
Bind Scope sst_scope with M.

Notation "x <- c1 ;; c2" := (bind c1 (fun x => c2))
  (at level 100, c1 at next level, right associativity) : sst_scope.
Notation "c1 ;; c2" := (bind c1 (fun _ => c2))
  (at level 100, right associativity) : sst_scope.

Local Open Scope sst_scope.

Definition fatal {A : Type} (e : FatalError) : M A := fun s => Fatal e s.

Definition undefined {A : Type} (u : UB) : M A := fun _ => Undefined u.

(** [Simulation_impl::getSimulation()] *)
Definition getSimulation : M Simulation := fun s => Ok s s.

(** Reading the members of the link at an address. *)
Definition load_link (l : loc) : M Link :=
  fun s =>
    match links s !! l with
    | Some L => Ok L s
    | None => Undefined DanglingPointer
    end.

(** Writing a member of the link at an address. *)
Definition store_link (l : loc) (f : Link -> Link) : M unit :=
  fun s =>
    match links s !! l with
    | Some L => Ok tt (with_links (<[l := f L]> (links s)) s)
    | None => Undefined DanglingPointer
    end.

(** [p->], for a pointer that may be null. *)
Definition deref {A : Type} (p : option A) : M A :=
  match p with
  | Some x => ret x
  | None => undefined NullDereference
  end.

Definition load_queue (q : loc) : M ActivityQueue.t :=
  fun s =>
    match queues s !! q with
    | Some (Live Q) => Ok Q s
    | _ => Undefined DanglingPointer
    end.

Definition store_queue (q : loc) (Q : ActivityQueue.t) : M unit :=
  fun s =>
    match queues s !! q with
    | Some (Live _) => Ok tt (with_queues (<[q := Live Q]> (queues s)) s)
    | _ => Undefined DanglingPointer
    end.

(** [new Q()]: an address that no queue, live or deleted, has had. *)
Definition new_queue (Q : ActivityQueue.t) : M loc :=
  fun s =>
    let l := fresh (dom (queues s)) in
    Ok l (with_queues (<[l := Live Q]> (queues s)) s).

(** [delete p]: nothing for a null pointer. *)
Definition delete_queue (p : option loc) : M unit :=
  match p with
  | None => ret tt
  | Some q =>
      fun s =>
        match queues s !! q with
        | Some (Live _) => Ok tt (with_queues (<[q := Freed]> (queues s)) s)
        | _ => Undefined DanglingPointer
        end
  end.

(** [LinkSendProfileToolList::eventSent(ev)]: each tool is told of the
    event with its key, in the order of registration. *)
Definition eventSent (tools : list (Z * Z)) (ev : Event.t) : M unit :=
  fun s =>
    Ok tt (with_profile_log
             (profile_log s ++ map (fun x => (fst x, snd x, ev)) tools) s).

(* ===================================================================== *)
(** ** Member functions of [Link] *)
(* ===================================================================== *)

(** [Link::finalizeConfiguration()].  The call on [pair_link] is a
    recursive call; [fuel] bounds the depth of the calls. *)
Fixpoint finalizeConfiguration (fuel : nat) (this : loc) : M unit :=
  match fuel with
  | O => fun _ => OutOfFuel
  | S fuel' =>
      store_link this (set_mode RUN) ;;
      L <- load_link this ;;
      if decide (SYNC = type L) then ret tt
      else
        p <- deref (pair_link L) ;;
        P <- load_link p ;;
        (if decide (None = send_queue P)
         then delete_queue (send_queue P) ;;
              store_link p (set_send_queue None)
         else ret tt) ;;
        (if decide (HANDLER = type L)
         then sim <- getSimulation ;;
              store_link p (set_send_queue (Some (timeVortex sim)))
         else if decide (POLL = type L)
         then q <- new_queue (ActivityQueue.PollingLinkQueue []) ;;
              store_link p (set_send_queue (Some q))
         else ret tt) ;;
        P' <- load_link p ;;
        if decide (SYNC = type P') then finalizeConfiguration fuel' p
        else ret tt
  end.

(** [Link::prepareForComplete()] *)
Fixpoint prepareForComplete (fuel : nat) (this : loc) : M unit :=
  match fuel with
  | O => fun _ => OutOfFuel
  | S fuel' =>
      store_link this (set_mode COMPLETE) ;;
      L <- load_link this ;;
      if decide (SYNC = type L) then ret tt
      else
        p <- deref (pair_link L) ;;
        (if decide (POLL = type L)
         then P <- load_link p ;; delete_queue (send_queue P)
         else ret tt) ;;
        store_link p (set_send_queue None) ;;
        P' <- load_link p ;;
        if decide (SYNC = type P') then prepareForComplete fuel' p
        else ret tt
  end.

(** [Link::setPolling()] *)
Definition setPolling (this : loc) : M unit :=
  store_link this (set_type POLL).

(** [Link::setLatency(Cycle_t lat)] *)
Definition setLatency (this : loc) (lat : Z) : M unit :=
  store_link this (set_latency lat).

(** [Link::setFunctor(Event::HandlerBase* functor)] *)
Definition setFunctor (this : loc) (functor : Z) : M unit :=
  L <- load_link this ;;
  (if decide (type L = POLL) then fatal SetFunctorOnPollingLink
   else ret tt) ;;
  store_link this (set_type HANDLER) ;;
  L' <- load_link this ;;
  p <- deref (pair_link L') ;;
  store_link p (set_delivery_info functor).

(** [Link::send_impl(SimTime_t delay, Event* event)]; a null [event] is
    [None]. *)
Definition send_impl (this : loc) (delay : Z) (event : option Event.t)
  : M unit :=
  L <- load_link this ;;
  (if decide (RUN <> mode L)
   then if decide (INIT = mode L) then fatal SendRecvDuringInit
        else if decide (COMPLETE = mode L) then fatal SendRecvDuringComplete
        else ret tt
   else ret tt) ;;
  sim <- getSimulation ;;
  let cycle := wrap64 (currentSimCycle sim + wrap64 delay + latency L) in
  let event :=
    match event with
    | None => Event.new Event.NullEvent
    | Some e => e
    end in
  let event := Event.setDeliveryTime cycle event in
  let event := Event.setDeliveryInfo (tag L) (delivery_info L) event in
  (match profile_tools L with
   | Some tools => eventSent tools event
   | None => ret tt
   end) ;;
  q <- deref (send_queue L) ;;
  Q <- load_queue q ;;
  store_queue q (ActivityQueue.insert event Q).

(** [Link::recv()]; the returned pointer is [None] when null. *)
Definition recv (this : loc) : M (option Event.t) :=
  L <- load_link this ;;
  (if decide (type L <> POLL) then fatal RecvOnHandlerLink else ret tt) ;;
  simulation <- getSimulation ;;
  p <- deref (pair_link L) ;;
  P <- load_link p ;;
  q <- deref (send_queue P) ;;
  Q <- load_queue q ;;
  if negb (ActivityQueue.empty Q)
  then
    activity <- match ActivityQueue.front Q with
                | Some a => ret a
                | None => undefined FrontOfEmptyQueue
                end ;;
    if Event.getDeliveryTime activity <=? currentSimCycle simulation
    then store_queue q (ActivityQueue.pop Q) ;; ret (Some activity)
    else ret None
  else ret None.

(** [Link::sendUntimedData(Event* data)] *)
Definition sendUntimedData (this : loc) (data : option Event.t) : M unit :=
  L <- load_link this ;;
  (if decide (RUN = mode L) then fatal UntimedDuringRun else ret tt) ;;
  (if decide (send_queue L = None)
   then q <- new_queue (ActivityQueue.InitQueue []) ;;
        store_link this (set_send_queue (Some q))
   else ret tt) ;;
  (fun s => Ok tt (with_untimed_msg_count (untimed_msg_count s + 1) s)) ;;
  sim <- getSimulation ;;
  data <- deref data ;;
  let data := Event.setDeliveryTime (untimed_phase sim + 1) data in
  L' <- load_link this ;;
  let data := Event.setDeliveryInfo (tag L') (delivery_info L') data in
  q <- deref (send_queue L') ;;
  Q <- load_queue q ;;
  store_queue q (ActivityQueue.insert data Q).

(** [Link::sendUntimedData_sync(Event* data)], called by the sync
    manager with an event it has received. *)
Definition sendUntimedData_sync (this : loc) (data : Event.t) : M unit :=
  L <- load_link this ;;
  (if decide (send_queue L = None)
   then q <- new_queue (ActivityQueue.InitQueue []) ;;
        store_link this (set_send_queue (Some q))
   else ret tt) ;;
  L' <- load_link this ;;
  q <- deref (send_queue L') ;;
  Q <- load_queue q ;;
  store_queue q (ActivityQueue.insert data Q).

(** [Link::recvUntimedData()] *)
Definition recvUntimedData (this : loc) : M (option Event.t) :=
  L <- load_link this ;;
  p <- deref (pair_link L) ;;
  P <- load_link p ;;
  match send_queue P with
  | None => ret None
  | Some q =>
      Q <- load_queue q ;;
      if negb (ActivityQueue.empty Q)
      then
        activity <- match ActivityQueue.front Q with
                    | Some a => ret a
                    | None => undefined FrontOfEmptyQueue
                    end ;;
        sim <- getSimulation ;;
        if Event.getDeliveryTime activity <=? untimed_phase sim
        then store_queue q (ActivityQueue.pop Q) ;; ret (Some activity)
        else ret None
      else ret None
  end.

(** [Link::setDefaultTimeBase(TimeConverter* tc)], the converter given by
    its factor. *)
Definition setDefaultTimeBase (this : loc) (tc : option Z) : M unit :=
  match tc with
  | None => store_link this
              (fun L => mkLink (send_queue L) (delivery_info L) 0 (latency L)
                               (pair_link L) (type L) (mode L) (tag L)
                               (profile_tools L))
  | Some factor =>
      store_link this
        (fun L => mkLink (send_queue L) (delivery_info L) (wrap64 factor)
                         (latency L) (pair_link L) (type L) (mode L) (tag L)
                         (profile_tools L))
  end.

(* ===================================================================== *)
(** ** Observations on a state *)
(* ===================================================================== *)

(** The queue a link's [send_queue] points at, when it is live. *)
Definition queue_of (s : Simulation) (l : loc) : option ActivityQueue.t :=
  match links s !! l with
  | Some L =>
      match send_queue L with
      | Some q =>
          match queues s !! q with
          | Some (Live Q) => Some Q
          | _ => None
          end
      | None => None
      end
  | None => None
  end.

(** The items held by the queue a link's [send_queue] points at. *)
Definition send_queue_data (s : Simulation) (l : loc) : list Event.t :=
  match queue_of s l with
  | Some Q => ActivityQueue.data Q
  | None => []
  end.

(** The items waiting for a link: its [recv] and [recvUntimedData] read
    [pair_link->send_queue]. *)
Definition inbox (s : Simulation) (l : loc) : list Event.t :=
  match links s !! l with
  | Some L =>
      match pair_link L with
      | Some p => send_queue_data s p
      | None => []
      end
  | None => []
  end.

(** The state in which a call returned. *)
Definition state_after {A : Type} (o : Outcome A) : option Simulation :=
  match o with
  | Ok _ s => Some s
  | _ => None
  end.

(** The value a call returned. *)
Definition value_of {A : Type} (o : Outcome A) : option A :=
  match o with
  | Ok a _ => Some a
  | _ => None
  end.

(** What can be seen of a link without comparing addresses of queues:
    its members, with [send_queue] replaced by the cell it points at. *)
Definition link_view (s : Simulation) (l : loc)
  : option (Link * option (option Cell)) :=
  match links s !! l with
  | Some L =>
      Some (set_send_queue None L,
            match send_queue L with
            | Some q => Some (queues s !! q)
            | None => None
            end)
  | None => None
  end.

(** No link holds in [send_queue] an address that was never allocated. *)
Definition heap_closed (s : Simulation) : Prop :=
  forall l L q,
    links s !! l = Some L -> send_queue L = Some q ->
    is_Some (queues s !! q).

(* ===================================================================== *)
(** ** Scenarios *)
(* ===================================================================== *)

(** The scheduler moving the simulated clock, and the untimed-phase
    driver moving the phase counter (both outside [link.cc]). *)
Definition clock_at (c : Z) : M unit :=
  fun s => Ok tt (with_currentSimCycle (wrap64 c) s).

Definition untimed_phase_at (p : Z) : M unit :=
  fun s => Ok tt (with_untimed_phase p s).

(** Two links built by [Link(5)] and [Link(6)] at addresses 1 and 2 and
    paired with each other, as the configuration code does, at time 0,
    with the rank's TimeVortex at address 100. *)
Definition boot : Simulation :=
  mkSim 0 0 0 100
    (<[1 := set_pair_link (Some 2) (Link_of_tag 5)]>
       (<[2 := set_pair_link (Some 1) (Link_of_tag 6)]> ∅))
    (<[100 := Live (ActivityQueue.TimeVortex [] 0)]> ∅) [].

(** One link built by [Link(5)] and paired with itself (loopback). *)
Definition loopback : Simulation :=
  mkSim 0 0 0 100
    (<[1 := set_pair_link (Some 1) (Link_of_tag 5)]> ∅)
    (<[100 := Live (ActivityQueue.TimeVortex [] 0)]> ∅) [].

(** Two [SYNC] links paired with each other. *)
Definition mutual_sync : Simulation :=
  mkSim 0 0 0 100
    (<[1 := set_type SYNC (set_pair_link (Some 2) (Link_of_tag 5))]>
       (<[2 := set_type SYNC (set_pair_link (Some 1) (Link_of_tag 6))]> ∅))
    (<[100 := Live (ActivityQueue.TimeVortex [] 0)]> ∅) [].

(** Two handler links in the Run phase at time 10: each holds the
    handler of the other in [delivery_info], and both [send_queue]s
    point at the rank's TimeVortex. *)
Definition running_handlers : Simulation :=
  mkSim 10 0 0 100
    (<[1 := mkLink (Some 100) 600 0 2 (Some 2) HANDLER RUN 5 None]>
       (<[2 := mkLink (Some 100) 500 0 1 (Some 1) HANDLER RUN 6 None]> ∅))
    (<[100 := Live (ActivityQueue.TimeVortex [] 0)]> ∅) [].

(** An event of a component's own class, as its constructor leaves it. *)
Definition user_event : Event.t := Event.new (Event.UserEvent 7).

(* ===================================================================== *)
(** ** Event identifiers and event tracking ([event.h], [event.cc]) *)
(* ===================================================================== *)

Module EventId.

(** [Event::id_type], a pair of a [uint64_t] and an [int]. *)
Definition id_type : Type := (Z * Z)%type.

(** [NO_ID = std::make_pair(0, -1)] *)
Definition NO_ID : id_type := (0, -1).

(** The static counter, [id_counter(0)]. *)
Definition id_counter_init : Z := 0.

(** [generateUniqueId()]:
    [std::make_pair(id_counter++, getSimulation()->getRank().rank)].
    The counter is the state; the rank, which the simulation gives, is
    converted to the [int] of the pair. *)
Definition generateUniqueId (rank : Z) (id_counter : Z) : id_type * Z :=
  ((id_counter, to_int32 rank), wrap64 (id_counter + 1)).

(** The identifiers of [n] calls made one after the other. *)
Fixpoint generate (n : nat) (rank : Z) (id_counter : Z) : list id_type :=
  match n with
  | O => []
  | S n' =>
      let '(id, id_counter') := generateUniqueId rank id_counter in
      id :: generate n' rank id_counter'
  end.

End EventId.

Module EventTracking.

(** The members of an [Event] under [__SST_DEBUG_EVENT_TRACKING__]. *)
Record t : Type := mk {
  first_comp : String.string;
  first_type : String.string;
  first_port : String.string;
  last_comp : String.string;
  last_type : String.string;
  last_port : String.string
}.

(** As [Event()] leaves them: [first_comp] and [last_comp] are assigned
    the empty string, the other four are default-constructed. *)
Definition new : t :=
  mk String.EmptyString String.EmptyString String.EmptyString
     String.EmptyString String.EmptyString String.EmptyString.

(** [addSendComponent(comp, type, port)] *)
Definition addSendComponent (comp type port : String.string) (e : t) : t :=
  if String.eqb (first_comp e) String.EmptyString
  then mk comp type port (last_comp e) (last_type e) (last_port e)
  else e.

(** [addRecvComponent(comp, type, port)] *)
Definition addRecvComponent (comp type port : String.string) (e : t) : t :=
  mk (first_comp e) (first_type e) (first_port e) comp type port.

(** One hop over a link, as [Link::send_impl] records it: the sender,
    then the receiver. *)
Definition hop (sender receiver : String.string * String.string * String.string)
    (e : t) : t :=
  let '(sc, st, sp) := sender in
  let '(rc, rt, rp) := receiver in
  addRecvComponent rc rt rp (addSendComponent sc st sp e).

(** The tracking members after a list of hops, each given by its
    sender and its receiver. *)
Definition hops
    (hs : list ((String.string * String.string * String.string) *
                (String.string * String.string * String.string)))
    (e : t) : t :=
  fold_left (fun e h => hop (fst h) (snd h) e) hs e.

End EventTracking.

(* ===================================================================== *)
(** ** More member functions of [Link] *)
(* ===================================================================== *)

Definition set_profile_tools (t : option (list (Z * Z))) (L : Link) : Link :=
  mkLink (send_queue L) (delivery_info L) (defaultTimeBase L) (latency L)
         (pair_link L) (type L) (mode L) (tag L) t.

(** [latency += n] on a [Cycle_t]. *)
Definition add_latency (n : Z) (L : Link) : Link :=
  set_latency (latency L + n) L.

(** [Link::addSendLatency(int cycles, const std::string& timebase)].
    [tb] is what [TimeLord::getSimCycles] returns for [timebase]; the
    [int] is converted to the 64-bit unsigned type of [tb] before the
    product is taken. *)
Definition addSendLatency (this : loc) (cycles : Z) (tb : Z) : M unit :=
  store_link this
    (add_latency (wrap64 (wrap64 (to_int32 cycles) * wrap64 tb))).

(** [Link::addSendLatency(SimTime_t cycles, TimeConverter* timebase)],
    the converter given by its [convertToCoreTime]. *)
Definition addSendLatency_tc (this : loc) (cycles : Z)
    (convertToCoreTime : Z -> Z) : M unit :=
  store_link this (add_latency (wrap64 (convertToCoreTime (wrap64 cycles)))).

(** [Link::addRecvLatency(int cycles, const std::string& timebase)] *)
Definition addRecvLatency (this : loc) (cycles : Z) (tb : Z) : M unit :=
  L <- load_link this ;;
  p <- deref (pair_link L) ;;
  store_link p (add_latency (wrap64 (wrap64 (to_int32 cycles) * wrap64 tb))).

(** [Link::addRecvLatency(SimTime_t cycles, TimeConverter* timebase)] *)
Definition addRecvLatency_tc (this : loc) (cycles : Z)
    (convertToCoreTime : Z -> Z) : M unit :=
  L <- load_link this ;;
  p <- deref (pair_link L) ;;
  store_link p (add_latency (wrap64 (convertToCoreTime (wrap64 cycles)))).

(** [Link::getDefaultTimeBase()]: null when [defaultTimeBase] is 0,
    otherwise the converter that the TimeLord keeps for that factor,
    given here by the factor. *)
Definition getDefaultTimeBase (this : loc) : M (option Z) :=
  L <- load_link this ;;
  if decide (defaultTimeBase L = 0) then ret None
  else ret (Some (defaultTimeBase L)).

(** [Link::addProfileTool(tool, mdata)]; [key] is what
    [tool->registerHandler(mdata)] returns. *)
Definition addProfileTool (this : loc) (tool key : Z) : M unit :=
  L <- load_link this ;;
  (if decide (profile_tools L = None)
   then store_link this (set_profile_tools (Some []))
   else ret tt) ;;
  L' <- load_link this ;;
  tools <- deref (profile_tools L') ;;
  store_link this (set_profile_tools (Some (tools ++ [(tool, key)]))).

(** The end of a link's storage. *)
Definition free_link (l : loc) : M unit :=
  fun s =>
    match links s !! l with
    | Some _ => Ok tt (with_links (delete l (links s)) s)
    | None => Undefined DanglingPointer
    end.

(** [delete link]: the destructor [Link::~Link()], then the end of the
    storage.  [delete pair_link] in the destructor is a call of the same
    kind; [fuel] bounds the depth of the calls.  The list of profile
    tools is part of the link's record and goes with it. *)
Fixpoint delete_Link (fuel : nat) (this : loc) : M unit :=
  match fuel with
  | O => fun _ => OutOfFuel
  | S fuel' =>
      L <- load_link this ;;
      (if decide (pair_link L <> None /\ pair_link L <> Some this)
       then
         p <- deref (pair_link L) ;;
         store_link p (set_pair_link None) ;;
         P <- load_link p ;;
         if decide (SYNC = type P) then delete_Link fuel' p else ret tt
       else ret tt) ;;
      free_link this
  end.

(** What [finalizeConfiguration] and [prepareForComplete] never write:
    a link with its mode and its [send_queue] blanked. *)
Definition configuration (L : Link) : Link :=
  set_mode INIT (set_send_queue None L).

(** The configuration of every link of the simulation. *)
Definition configurations (s : Simulation) : gmap loc Link :=
  configuration <$> links s.

(** Two polling links built by [Link(5)] and [Link(6)] and paired with
    each other, before [finalizeConfiguration]. *)
Definition polling_boot : Simulation :=
  mkSim 0 0 0 100
    (<[1 := set_type POLL (set_pair_link (Some 2) (Link_of_tag 5))]>
       (<[2 := set_type POLL (set_pair_link (Some 1) (Link_of_tag 6))]> ∅))
    (<[100 := Live (ActivityQueue.TimeVortex [] 0)]> ∅) [].

(** [n] calls of [recvUntimedData()] one after the other, as the loop
    of a component's [init] makes them; what each call returned, in the
    order of the calls. *)
Fixpoint recvUntimedData_times (n : nat) (this : loc)
  : M (list (option Event.t)) :=
  match n with
  | O => ret []
  | S n' =>
      r <- recvUntimedData this ;;
      rs <- recvUntimedData_times n' this ;;
      ret (r :: rs)
  end.

(** A computation that, whenever it returns, leaves an observation of
    the state as it was. *)
Definition preserves {A X : Type} (obs : Simulation -> X) (c : M A) : Prop :=
  forall s a s', c s = Ok a s' -> obs s' = obs s.

(* ===================================================================== *)
(** ** Facts on fixed-width integers and on the packed word *)
(* ===================================================================== *)

Lemma wrap64_land (z : Z) : wrap64 z = Z.land z (Z.ones 64).
Proof. unfold wrap64. now rewrite Z.land_ones by lia. Qed.

Lemma to_uint32_land (z : Z) : to_uint32 z = Z.land z (Z.ones 32).
Proof. unfold to_uint32. now rewrite Z.land_ones by lia. Qed.

Lemma wrap64_small (z : Z) : 0 <= z < 2 ^ 64 -> wrap64 z = z.
Proof. intros H. unfold wrap64. now rewrite Z.mod_small. Qed.

Lemma wrap64_range (z : Z) : 0 <= wrap64 z < 2 ^ 64.
Proof. unfold wrap64. apply Z.mod_pos_bound. lia. Qed.

Lemma wrap64_add_inner (a b c : Z) :
  wrap64 (a + wrap64 b + c) = wrap64 (a + b + c).
Proof.
  unfold wrap64.
  replace (a + b mod 2 ^ 64 + c) with (b mod 2 ^ 64 + (a + c)) by lia.
  replace (a + b + c) with (b + (a + c)) by lia.
  now rewrite Z.add_mod_idemp_l by lia.
Qed.

Lemma to_int32_congr (x y : Z) :
  to_uint32 x = to_uint32 y -> to_int32 x = to_int32 y.
Proof.
  unfold to_uint32, to_int32. intros H.
  rewrite <- (Z.add_mod_idemp_l x), <- (Z.add_mod_idemp_l y) by lia.
  now rewrite H.
Qed.

Lemma to_int32_small (p : Z) : - 2 ^ 31 <= p < 2 ^ 31 -> to_int32 p = p.
Proof. intros H. unfold to_int32. rewrite Z.mod_small; lia. Qed.

Lemma to_uint32_small (t : Z) : 0 <= t < 2 ^ 32 -> to_uint32 t = t.
Proof. intros H. unfold to_uint32. now rewrite Z.mod_small. Qed.

Lemma mask_low : 0x00000000FFFFFFFF = Z.ones 32.
Proof. reflexivity. Qed.

Lemma mask_high : 0xFFFFFFFF00000000 = Z.shiftl (Z.ones 32) 32.
Proof. reflexivity. Qed.

(** Equality of two words, bit by bit: each bit is read through the
    bitwise operations, with the bits below and from position 32 taken
    apart. *)
Ltac bits_step :=
  match goal with
  | |- context [Z.testbit ?x ?m] => rewrite (Z.testbit_neg_r x m) by lia
  | |- context [Z.testbit (Z.ones ?k) ?m] =>
      rewrite (Z.testbit_ones_nonneg k m) by lia
  | |- context [?a <? ?b] =>
      first [ rewrite (proj2 (Z.ltb_lt a b)) by lia
            | rewrite (proj2 (Z.ltb_ge a b)) by lia ]
  end.

Ltac bits :=
  apply Z.bits_inj'; intros n Hn;
  repeat first
    [ rewrite Z.land_spec | rewrite Z.lor_spec
    | rewrite Z.shiftr_spec by lia
    | rewrite Z.shiftl_spec by lia ];
  destruct (Z.lt_ge_cases n 32);
  repeat bits_step;
  repeat rewrite ?andb_false_r, ?andb_true_r, ?orb_false_r, ?orb_false_l,
    ?andb_false_l, ?Z.add_simpl_r;
  try reflexivity.

Lemma getOrderTag_setPriority (p : Z) (a : Activity.t) :
  Activity.getOrderTag (Activity.setPriority p a) = Activity.getOrderTag a.
Proof.
  unfold Activity.getOrderTag, Activity.setPriority; simpl.
  rewrite !to_uint32_land, !wrap64_land, mask_low. f_equal.
  bits.
Qed.

Lemma getPriority_setPriority (p : Z) (a : Activity.t) :
  Activity.getPriority (Activity.setPriority p a) = to_int32 p.
Proof.
  unfold Activity.getPriority, Activity.setPriority; simpl.
  apply to_int32_congr.
  rewrite !to_uint32_land, !wrap64_land, mask_low.
  bits.
Qed.

Lemma getOrderTag_setOrderTag (t : Z) (a : Activity.t) :
  Activity.getOrderTag (Activity.setOrderTag t a) = to_uint32 t.
Proof.
  unfold Activity.getOrderTag, Activity.setOrderTag; simpl.
  rewrite !to_uint32_land, mask_low, mask_high.
  bits.
Qed.

Lemma getPriority_setOrderTag (t : Z) (a : Activity.t) :
  Activity.getPriority (Activity.setOrderTag t a) = Activity.getPriority a.
Proof.
  unfold Activity.getPriority, Activity.setOrderTag; simpl.
  apply to_int32_congr.
  rewrite !to_uint32_land, mask_high.
  bits.
Qed.

(** The setters keep every member a 64-bit word. *)
Lemma setPriority_wf (p : Z) (a : Activity.t) :
  Activity.wf a -> Activity.wf (Activity.setPriority p a).
Proof.
  intros (Ht & Hp & Hq). repeat split; simpl; try lia.
  - apply Z.lor_nonneg. split; [apply Z.land_nonneg; right; lia |].
    apply wrap64_range.
  - assert (Hlog : forall x, 0 <= x -> x < 2 ^ 64 <-> Z.log2 x < 64)
      by (intros x Hx; destruct (Z.eq_dec x 0) as [-> | Hne];
          [ simpl; lia | rewrite Z.log2_lt_pow2 by lia; reflexivity ]).
    set (lo := Z.land (Activity.priority_order a) 0xFFFFFFFF).
    set (hi := wrap64 (Z.shiftl (wrap64 p) 32)).
    assert (Hlo : 0 <= lo < 2 ^ 64).
    { unfold lo. rewrite mask_low, Z.land_ones by lia.
      pose proof (Z.mod_pos_bound (Activity.priority_order a) (2 ^ 32)).
      lia. }
    assert (Hhi : 0 <= hi < 2 ^ 64) by apply wrap64_range.
    apply Hlog; [apply Z.lor_nonneg; lia |].
    rewrite Z.log2_lor by lia.
    apply Z.max_lub_lt; apply Hlog; lia.
Qed.

(* ===================================================================== *)
(** ** The comparators *)
(* ===================================================================== *)

Lemma less_selected (T P Q : bool) (a b : Activity.t) :
  Activity.less T P Q a b = true <->
  lex_lt (Activity.selected T P Q a) (Activity.selected T P Q b).
Proof.
  destruct a as [ta pa qa], b as [tb pb qb].
  unfold Activity.less, Activity.selected, lex_lt; simpl.
  destruct T, P, Q; simpl;
    repeat match goal with
    | |- context [?x =? ?y] => destruct (Z.eqb_spec x y); simpl
    end;
    rewrite ?Z.ltb_lt; try lia; intuition (try lia; try discriminate).
Qed.

Lemma less_irreflexive (T P Q : bool) (a : Activity.t) :
  Activity.less T P Q a a = false.
Proof.
  unfold Activity.less. rewrite !Z.eqb_refl, !andb_false_r.
  rewrite Z.ltb_irrefl. apply andb_false_r.
Qed.

Lemma less_transitive (T P Q : bool) (a b c : Activity.t) :
  Activity.less T P Q a b = true -> Activity.less T P Q b c = true ->
  Activity.less T P Q a c = true.
Proof.
  rewrite !less_selected.
  destruct a as [ta pa qa], b as [tb pb qb], c as [tc pc qc].
  unfold Activity.selected, lex_lt; simpl. destruct T, P, Q; lia.
Qed.

(** The reverse comparator is the comparator with its arguments
    exchanged. *)
Lemma greater_less (T P Q : bool) (a b : Activity.t) :
  Activity.greater T P Q a b = Activity.less T P Q b a.
Proof.
  unfold Activity.greater, Activity.less.
  rewrite !Z.gtb_ltb.
  rewrite (Z.eqb_sym (Activity.delivery_time a)),
    (Z.eqb_sym (Activity.priority_order a)).
  reflexivity.
Qed.

(** C2.  The comparator [less<true,true,true>] answers true exactly when
    the triple (delivery_time, priority_order, queue_order) of its first
    argument is lexicographically smaller than that of its second.  It
    is irreflexive and transitive, and two activities with distinct
    triples are always ordered one way or the other: a strict total
    order.  For any [(T, P, Q)], [less<T,P,Q>] is the lexicographic
    comparison of the selected fields alone, delivery time first, then
    priority_order, then queue_order. *)
Theorem less_strict_total_order (T P Q : bool) (a b c : Activity.t) :
  (Activity.less true true true a b = true <->
   lex_lt (Activity.triple a) (Activity.triple b)) /\
  (Activity.less T P Q a b = true <->
   lex_lt (Activity.selected T P Q a) (Activity.selected T P Q b)) /\
  Activity.less true true true a a = false /\
  (Activity.less true true true a b = true ->
   Activity.less true true true b c = true ->
   Activity.less true true true a c = true) /\
  (Activity.triple a <> Activity.triple b ->
   Activity.less true true true a b = true \/
   Activity.less true true true b a = true).
Proof.
  split; [exact (less_selected true true true a b) |].
  split; [exact (less_selected T P Q a b) |].
  split; [apply less_irreflexive |].
  split; [apply less_transitive |].
  intros Hne. rewrite !less_selected.
  destruct a as [ta pa qa], b as [tb pb qb].
  unfold Activity.selected, Activity.triple, lex_lt in *; simpl.
  destruct (Z.lt_trichotomy ta tb) as [? | [-> | ?]]; [lia | | lia].
  destruct (Z.lt_trichotomy pa pb) as [? | [-> | ?]]; [lia | | lia].
  destruct (Z.lt_trichotomy qa qb) as [? | [-> | ?]]; [lia | | lia].
  congruence.
Qed.

(** The order of the first boundary scenario: C (time 10, priority 40,
    tag 9) before B (priority 50, tag 1) before A (priority 50, tag 2). *)
Lemma less_strict_total_order_witness :
  let A := Activity.setOrderTag 2 (Activity.setPriority 50 (Activity.mk 10 0 0)) in
  let B := Activity.setOrderTag 1 (Activity.setPriority 50 (Activity.mk 10 0 1)) in
  let C := Activity.setOrderTag 9 (Activity.setPriority 40 (Activity.mk 10 0 2)) in
  Activity.less true true true C B = true /\
  Activity.less true true true B A = true /\
  Activity.less true true true C A = true.
Proof.
  intros A B C.
  split; [reflexivity |]. split; [reflexivity |].
  apply (proj1 (proj2 (proj2 (proj2 (less_strict_total_order true true true C B A)))));
    reflexivity.
Defined.

(* ===================================================================== *)
(** ** The packed priority word *)
(* ===================================================================== *)

(** C9, as the claim states it, fails: the priority argument is a 64-bit
    word, of which [setPriority] keeps the low 32 bits and which
    [getPriority] reads back as a signed 32-bit integer.  The priority
    2^32 + 50 is read back as 50, and 2^31 as -2^31. *)
Lemma setPriority_getPriority_truncates :
  Activity.getPriority (Activity.setPriority 4294967346 Activity.new) = 50 /\
  Activity.getPriority (Activity.setPriority 4294967346 Activity.new)
    <> 4294967346 /\
  Activity.getPriority (Activity.setPriority 2147483648 Activity.new)
    = -2147483648.
Proof. repeat split. intros H. discriminate H. Qed.

(** C9, amended.  For every activity, every priority that is a value of
    [int], [-2^31 <= p < 2^31], and every order tag that is a value of
    [uint32_t], [0 <= t < 2^32]: after [setPriority(p)], [getPriority()]
    returns [p] and [getOrderTag()] is unchanged; after [setOrderTag(t)],
    [getOrderTag()] returns [t] and [getPriority()] is unchanged.  For
    any 64-bit argument [w], [getPriority()] after [setPriority(w)]
    returns the low 32 bits of [w] read as a signed integer, and
    [getOrderTag()] is unchanged. *)
Theorem priority_order_halves (a : Activity.t) (p t : Z) :
  - 2 ^ 31 <= p < 2 ^ 31 ->
  0 <= t < 2 ^ 32 ->
  Activity.getPriority (Activity.setPriority p a) = p /\
  Activity.getOrderTag (Activity.setPriority p a) = Activity.getOrderTag a /\
  Activity.getOrderTag (Activity.setOrderTag t a) = t /\
  Activity.getPriority (Activity.setOrderTag t a) = Activity.getPriority a /\
  (forall w,
      Activity.getPriority (Activity.setPriority w a) = to_int32 w /\
      Activity.getOrderTag (Activity.setPriority w a) = Activity.getOrderTag a).
Proof.
  intros Hp Ht.
  rewrite getPriority_setPriority, getOrderTag_setPriority,
    getOrderTag_setOrderTag, getPriority_setOrderTag.
  rewrite to_int32_small, to_uint32_small by assumption.
  repeat split.
  - apply getPriority_setPriority.
  - apply getOrderTag_setPriority.
Qed.

Lemma priority_order_halves_witness :
  let a := Activity.setOrderTag 7 (Activity.setPriority 40 Activity.new) in
  Activity.getPriority (Activity.setPriority 99 a) = 99 /\
  Activity.getOrderTag (Activity.setPriority 99 a) = 7 /\
  Activity.getOrderTag (Activity.setOrderTag 12 a) = 12 /\
  Activity.getPriority (Activity.setOrderTag 12 a) = 40.
Proof.
  intros a.
  destruct (priority_order_halves a 99 12) as (H1 & H2 & H3 & H4 & _);
    [lia | lia |].
  repeat split; assumption.
Defined.

(* ===================================================================== *)
(** ** Running a member function *)
(* ===================================================================== *)

Lemma load_link_inv (l : loc) (s s' : Simulation) (L : Link) :
  load_link l s = Ok L s' -> s' = s /\ links s !! l = Some L.
Proof.
  unfold load_link. destruct (links s !! l); intros H; inversion H; auto.
Qed.

Lemma bind_ext {A B : Type} (c : M A) (k k' : A -> M B) (s : Simulation) :
  (forall a s', c s = Ok a s' -> k a s' = k' a s') ->
  bind c k s = bind c k' s.
Proof. unfold bind. destruct (c s); auto. Qed.

Lemma bind_not_OutOfFuel {A B : Type} (c : M A) (k : A -> M B)
    (s : Simulation) :
  c s <> OutOfFuel ->
  (forall a s', c s = Ok a s' -> k a s' <> OutOfFuel) ->
  bind c k s <> OutOfFuel.
Proof. unfold bind. destruct (c s); auto; congruence. Qed.

Lemma store_link_not_OutOfFuel (l : loc) (f : Link -> Link) (s : Simulation) :
  store_link l f s <> OutOfFuel.
Proof. unfold store_link. destruct (links s !! l); discriminate. Qed.

Lemma load_link_not_OutOfFuel (l : loc) (s : Simulation) :
  load_link l s <> OutOfFuel.
Proof. unfold load_link. destruct (links s !! l); discriminate. Qed.

Lemma deref_not_OutOfFuel {A : Type} (p : option A) (s : Simulation) :
  deref p s <> OutOfFuel.
Proof. destruct p; discriminate. Qed.

Lemma delete_queue_not_OutOfFuel (p : option loc) (s : Simulation) :
  delete_queue p s <> OutOfFuel.
Proof.
  destruct p as [q |]; [| discriminate].
  unfold delete_queue. destruct (queues s !! q) as [[] |]; discriminate.
Qed.

Lemma fresh_queue_None (m : gmap loc Cell) : m !! fresh (dom m) = None.
Proof. apply not_elem_of_dom, is_fresh. Qed.

Lemma fresh_twice (m : gmap loc Cell) (c : Cell) (q : loc) :
  is_Some (m !! q) ->
  q <> fresh (dom m) /\ q <> fresh (dom (<[fresh (dom m) := c]> m)).
Proof.
  intros Hq. split; intros ->.
  - rewrite fresh_queue_None in Hq. destruct Hq; discriminate.
  - pose proof (fresh_queue_None (<[fresh (dom m) := c]> m)) as H.
    apply lookup_insert_None in H. destruct H as [H _].
    rewrite H in Hq. destruct Hq; discriminate.
Qed.

(** Symbolic execution of the monadic code: the primitives are unfolded,
    record projections reduced, and each lookup, test of a link member
    and decision is resolved from the hypotheses. *)
Ltac munfold :=
  unfold deref, delete_queue, new_queue, eventSent, load_link, store_link,
    load_queue, store_queue, getSimulation, bind, fatal, undefined, ret.

Ltac mproj :=
  cbn beta iota zeta delta
    [bind ret fatal undefined links queues currentSimCycle untimed_phase
     untimed_msg_count timeVortex profile_log with_links with_queues
     with_untimed_phase with_untimed_msg_count with_currentSimCycle
     with_profile_log send_queue delivery_info defaultTimeBase latency
     pair_link type mode tag profile_tools set_send_queue set_delivery_info
     set_latency set_pair_link set_type set_mode].

Ltac mlookup :=
  match goal with
  | H : _ !! _ = _ |- _ => rewrite H
  | H : mode _ = _ |- _ => rewrite H
  | H : type _ = _ |- _ => rewrite H
  | H : send_queue _ = _ |- _ => rewrite H
  | H : pair_link _ = _ |- _ => rewrite H
  end.

Ltac absurd_case :=
  exfalso;
  first [ congruence
        | match goal with H : ~ _ |- _ => apply H; congruence end ].

Ltac mdecide :=
  match goal with
  | |- context [decide ?P] =>
      first [ solve [destruct (decide P); congruence]
            | destruct (decide P); try absurd_case; [idtac] ]
  end.

Ltac minsert :=
  first [ rewrite lookup_insert_eq
        | rewrite lookup_insert_ne by congruence ].

Ltac msimp :=
  munfold; mproj;
  repeat (progress (repeat first [ mlookup | minsert | mdecide ]); mproj).

Ltac bind_same :=
  match goal with
  | |- bind ?c _ ?s = bind ?c _ ?s => apply bind_ext; intros ? ? ?
  | |- (if ?d then _ else _) ?s = (if ?d then _ else _) ?s =>
      destruct d; [try reflexivity | try reflexivity]
  end.

Ltac no_fuel :=
  repeat first
    [ apply bind_not_OutOfFuel; [| intros ? ? ?]
    | apply store_link_not_OutOfFuel
    | apply load_link_not_OutOfFuel
    | apply deref_not_OutOfFuel
    | apply delete_queue_not_OutOfFuel
    | discriminate
    | case_decide ].

(* ===================================================================== *)
(** ** The queues *)
(* ===================================================================== *)

Lemma elem_of_insert_sorted (e : Event.t) (l : list Event.t) :
  e ∈ ActivityQueue.insert_sorted e l.
Proof.
  induction l as [| x l IH]; simpl.
  - apply list_elem_of_here.
  - destruct (Activity.less _ _ _ _ _).
    + apply list_elem_of_here.
    + apply list_elem_of_further, IH.
Qed.

Lemma admitted_in_insert (e : Event.t) (Q : ActivityQueue.t) :
  ActivityQueue.admitted e Q ∈ ActivityQueue.data (ActivityQueue.insert e Q).
Proof.
  destruct Q; simpl.
  - apply elem_of_insert_sorted.
  - apply elem_of_app; right. apply list_elem_of_here.
  - apply elem_of_app; right. apply list_elem_of_here.
Qed.

(** What a queue writes into an item leaves the stamp of the link. *)
Lemma admitted_stamp (e : Event.t) (Q : ActivityQueue.t) :
  Event.getDeliveryTime (ActivityQueue.admitted e Q) = Event.getDeliveryTime e /\
  Event.getOrderTag (ActivityQueue.admitted e Q) = Event.getOrderTag e /\
  Event.getPriority (ActivityQueue.admitted e Q) = Event.getPriority e /\
  Event.delivery_info (ActivityQueue.admitted e Q) = Event.delivery_info e /\
  Event.cls (ActivityQueue.admitted e Q) = Event.cls e.
Proof. destruct Q; repeat split. Qed.

(* ===================================================================== *)
(** ** Timed send *)
(* ===================================================================== *)

(** The state a send in the Run phase returns in. *)
Lemma send_impl_run (s : Simulation) (this q : loc) (L : Link)
    (Q : ActivityQueue.t) (d : Z) (event : option Event.t) :
  links s !! this = Some L ->
  mode L = RUN ->
  send_queue L = Some q ->
  queues s !! q = Some (Live Q) ->
  let ev := Event.setDeliveryInfo (tag L) (delivery_info L)
              (Event.setDeliveryTime
                 (wrap64 (currentSimCycle s + wrap64 d + latency L))
                 (match event with
                  | None => Event.new Event.NullEvent
                  | Some e => e
                  end)) in
  send_impl this d event s =
    Ok tt (with_queues (<[q := Live (ActivityQueue.insert ev Q)]> (queues s))
             (match profile_tools L with
              | Some tools =>
                  with_profile_log
                    (profile_log s ++ map (fun x => (fst x, snd x, ev)) tools) s
              | None => s
              end)).
Proof.
  intros HL Hm Hq HQ ev. unfold send_impl. msimp.
  destruct (profile_tools L) as [tools |]; msimp; try reflexivity.
Qed.

Lemma wrap64_idem (z : Z) : wrap64 (wrap64 z) = wrap64 z.
Proof. apply wrap64_small, wrap64_range. Qed.

(** The stamp that [send_impl] and [sendUntimedData] put on an event. *)
Lemma stamp_spec (tag info time : Z) (e : Event.t) :
  let e' := Event.setDeliveryInfo tag info (Event.setDeliveryTime time e) in
  Event.getDeliveryTime e' = wrap64 time /\
  Event.getOrderTag e' = to_uint32 tag /\
  Event.getPriority e' = Event.getPriority e /\
  Event.delivery_info e' = info /\
  Event.cls e' = Event.cls e.
Proof.
  cbv zeta. unfold Event.getOrderTag, Event.getPriority. cbn.
  rewrite getOrderTag_setOrderTag, getPriority_setOrderTag.
  repeat split.
Qed.

(** C1, as the claim states it, fails: between two polling links the
    event sent on link 1 is held by the queue that [send_queue] of link 1
    points at, which is where link 2 receives from; the queue that
    [send_queue] of link 2 points at stays empty. *)
Lemma send_impl_not_in_pair_send_queue :
  exists s',
    (setPolling 1 ;; setPolling 2 ;;
     finalizeConfiguration 2 1 ;; finalizeConfiguration 2 2 ;;
     clock_at 10 ;; send_impl 1 3 (Some user_event)) boot = Ok tt s' /\
    (pair_link <$> links s' !! 1) = Some (Some 2) /\
    send_queue_data s' 2 = [] /\
    send_queue_data s' 1 =
      [Event.setDeliveryInfo 5 0 (Event.setDeliveryTime 14 user_event)] /\
    inbox s' 2 =
      [Event.setDeliveryInfo 5 0 (Event.setDeliveryTime 14 user_event)].
Proof.
  eexists. split; [vm_compute; reflexivity |].
  repeat split.
Qed.

(** C1, amended.  For every link [L] in Run mode whose [send_queue]
    points at a live queue, [L.send(d, e)] returns having stamped [e]
    with delivery_time = t0 + d + L.latency in 64-bit arithmetic (the
    exact sum when it does not overflow), with [L]'s tag as 32-bit order
    tag and with [L]'s delivery_info, leaving its class and priority
    alone; the stamped event is then held by the queue that [L]'s own
    [send_queue] points at, which is the queue every link paired with
    [L] receives from, and no link is changed. *)
Theorem send_impl_delivers (s : Simulation) (this q : loc) (L : Link)
    (Q : ActivityQueue.t) (d : Z) (e : Event.t) :
  links s !! this = Some L ->
  mode L = RUN ->
  send_queue L = Some q ->
  queues s !! q = Some (Live Q) ->
  exists s' e',
    send_impl this d (Some e) s = Ok tt s' /\
    Event.getDeliveryTime e' = wrap64 (currentSimCycle s + d + latency L) /\
    (0 <= currentSimCycle s + d + latency L < 2 ^ 64 ->
     Event.getDeliveryTime e' = currentSimCycle s + d + latency L) /\
    Event.getOrderTag e' = to_uint32 (tag L) /\
    Event.delivery_info e' = delivery_info L /\
    Event.same_object e e' /\
    links s' = links s /\
    e' ∈ send_queue_data s' this /\
    (forall l' P,
        links s !! l' = Some P -> pair_link P = Some this ->
        e' ∈ inbox s' l').
Proof.
  intros HL Hm Hq HQ.
  pose proof (send_impl_run s this q L Q d (Some e) HL Hm Hq HQ) as Hrun.
  cbv zeta in Hrun.
  set (ev := Event.setDeliveryInfo (tag L) (delivery_info L)
               (Event.setDeliveryTime
                  (wrap64 (currentSimCycle s + wrap64 d + latency L)) e))
    in *.
  destruct (stamp_spec (tag L) (delivery_info L)
              (wrap64 (currentSimCycle s + wrap64 d + latency L)) e)
    as (Htime & Htag & Hprio & Hinfo & Hcls).
  fold ev in Htime, Htag, Hprio, Hinfo, Hcls.
  destruct (admitted_stamp ev Q) as (At & Ag & Ap & Ai & Ac).
  rewrite wrap64_idem, wrap64_add_inner in Htime.
  assert (Hdata : forall s',
             links s' = links s ->
             queues s' = <[q := Live (ActivityQueue.insert ev Q)]> (queues s) ->
             ActivityQueue.admitted ev Q ∈ send_queue_data s' this).
  { intros s' Hl Hqs. unfold send_queue_data, queue_of.
    rewrite Hl, HL, Hq, Hqs, lookup_insert_eq. apply admitted_in_insert. }
  eexists. exists (ActivityQueue.admitted ev Q).
  split; [exact Hrun |].
  split; [congruence |].
  split; [intros Hr; rewrite At, Htime; apply wrap64_small; exact Hr |].
  split; [congruence |].
  split; [congruence |].
  split; [split; congruence |].
  assert (Hlinks : links
            (with_queues (<[q := Live (ActivityQueue.insert ev Q)]> (queues s))
               match profile_tools L with
               | Some tools =>
                   with_profile_log
                     (profile_log s ++ map (fun x => (fst x, snd x, ev)) tools)
                     s
               | None => s
               end) = links s)
    by (destruct (profile_tools L); reflexivity).
  assert (Hqueues : queues
            (with_queues (<[q := Live (ActivityQueue.insert ev Q)]> (queues s))
               match profile_tools L with
               | Some tools =>
                   with_profile_log
                     (profile_log s ++ map (fun x => (fst x, snd x, ev)) tools)
                     s
               | None => s
               end) = <[q := Live (ActivityQueue.insert ev Q)]> (queues s))
    by (destruct (profile_tools L); reflexivity).
  split; [exact Hlinks |].
  split; [apply Hdata; assumption |].
  intros l' P HP Hpair. unfold inbox. rewrite Hlinks, HP, Hpair.
  apply Hdata; assumption.
Qed.

Lemma send_impl_delivers_witness :
  exists s' e',
    send_impl 1 3 (Some user_event) running_handlers = Ok tt s' /\
    Event.getDeliveryTime e' = 15 /\
    Event.getOrderTag e' = 5 /\
    Event.delivery_info e' = 600 /\
    e' ∈ inbox s' 2.
Proof.
  assert (H1 : links running_handlers !! 1 =
               Some (mkLink (Some 100) 600 0 2 (Some 2) HANDLER RUN 5 None))
    by (vm_compute; reflexivity).
  assert (H2 : links running_handlers !! 2 =
               Some (mkLink (Some 100) 500 0 1 (Some 1) HANDLER RUN 6 None))
    by (vm_compute; reflexivity).
  assert (HQ : queues running_handlers !! 100 =
               Some (Live (ActivityQueue.TimeVortex [] 0)))
    by (vm_compute; reflexivity).
  destruct (send_impl_delivers running_handlers 1 100 _ _ 3 user_event
              H1 eq_refl eq_refl HQ)
    as (s' & e' & Hs & Ht & _ & Hg & Hi & _ & _ & _ & Hin).
  exists s', e'.
  split; [exact Hs |].
  split; [exact Ht |].
  split; [exact Hg |].
  split; [exact Hi |].
  apply (Hin 2 _ H2). reflexivity.
Defined.

(** C5.  For every link whose mode is Init or Complete, [send(d, e)]
    ends in a fatal error, for an event as for a null pointer, and the
    process is terminated in the state in which the call was made: no
    queue has changed, no event has been inserted or stamped, and no
    NullEvent has been made. *)
Theorem send_impl_outside_run (s : Simulation) (this : loc) (L : Link)
    (d : Z) (event : option Event.t) :
  links s !! this = Some L ->
  mode L <> RUN ->
  send_impl this d event s =
    Fatal match mode L with
          | INIT => SendRecvDuringInit
          | _ => SendRecvDuringComplete
          end s.
Proof.
  intros HL Hm. unfold send_impl.
  destruct (mode L) eqn:Hmode; try congruence; msimp; try reflexivity.
Qed.

Lemma send_impl_outside_run_witness :
  send_impl 1 0 (Some user_event) boot = Fatal SendRecvDuringInit boot.
Proof.
  assert (H1 : links boot !! 1 = Some (set_pair_link (Some 2) (Link_of_tag 5)))
    by (vm_compute; reflexivity).
  apply (send_impl_outside_run boot 1 _ 0 (Some user_event) H1).
  discriminate.
Defined.

(* ===================================================================== *)
(** ** Construction *)
(* ===================================================================== *)



(* ===================================================================== *)
(** ** The phase changes *)
(* ===================================================================== *)

Lemma finalizeConfiguration_SYNC (fuel : nat) (s : Simulation) (this : loc)
    (L : Link) :
  links s !! this = Some L ->
  type L = SYNC ->
  finalizeConfiguration (S fuel) this s =
    Ok tt (with_links (<[this := set_mode RUN L]> (links s)) s).
Proof.
  intros HL Ht. cbn [finalizeConfiguration]. msimp; try reflexivity.
Qed.

Lemma prepareForComplete_SYNC (fuel : nat) (s : Simulation) (this : loc)
    (L : Link) :
  links s !! this = Some L ->
  type L = SYNC ->
  prepareForComplete (S fuel) this s =
    Ok tt (with_links (<[this := set_mode COMPLETE L]> (links s)) s).
Proof.
  intros HL Ht. cbn [prepareForComplete]. msimp; try reflexivity.
Qed.

Lemma finalizeConfiguration_dangling (fuel : nat) (this : loc)
    (s : Simulation) :
  links s !! this = None ->
  finalizeConfiguration (S fuel) this s = Undefined DanglingPointer.
Proof. intros H. cbn [finalizeConfiguration]. msimp; try reflexivity. Qed.

(** Two levels of calls are all that either function uses: the call on
    the pair is made only on a [SYNC] link, which returns at once. *)
Lemma finalizeConfiguration_fuel (f1 f2 : nat) (s : Simulation) (this : loc) :
  finalizeConfiguration (S (S f1)) this s =
  finalizeConfiguration (S (S f2)) this s.
Proof.
  remember (S f1) as g1 eqn:E1. remember (S f2) as g2 eqn:E2.
  cbn [finalizeConfiguration].
  repeat bind_same.
  match goal with H : load_link _ _ = Ok _ _ |- _ =>
    apply load_link_inv in H; destruct H as [-> Hp];
    subst g1 g2;
    rewrite !(finalizeConfiguration_SYNC _ _ _ _ Hp) by congruence end.
  reflexivity.
Qed.

Lemma prepareForComplete_fuel (f1 f2 : nat) (s : Simulation) (this : loc) :
  prepareForComplete (S (S f1)) this s =
  prepareForComplete (S (S f2)) this s.
Proof.
  remember (S f1) as g1 eqn:E1. remember (S f2) as g2 eqn:E2.
  cbn [prepareForComplete].
  repeat bind_same.
  match goal with H : load_link _ _ = Ok _ _ |- _ =>
    apply load_link_inv in H; destruct H as [-> Hp];
    subst g1 g2;
    rewrite !(prepareForComplete_SYNC _ _ _ _ Hp) by congruence end.
  reflexivity.
Qed.

Lemma finalizeConfiguration_returns (fuel : nat) (s : Simulation)
    (this : loc) :
  finalizeConfiguration (S (S fuel)) this s <> OutOfFuel.
Proof.
  remember (S fuel) as g eqn:E.
  cbn [finalizeConfiguration].
  no_fuel.
  all: match goal with
       | H : load_link ?p _ = Ok ?P ?s', Ht : SYNC = type ?P
         |- finalizeConfiguration _ ?p ?s' <> _ =>
           apply load_link_inv in H; destruct H as [-> Hp]; subst g;
           rewrite (finalizeConfiguration_SYNC _ _ _ _ Hp) by congruence
       end.
  all: discriminate.
Qed.

Lemma prepareForComplete_returns (fuel : nat) (s : Simulation) (this : loc) :
  prepareForComplete (S (S fuel)) this s <> OutOfFuel.
Proof.
  remember (S fuel) as g eqn:E.
  cbn [prepareForComplete].
  no_fuel.
  all: match goal with
       | H : load_link ?p _ = Ok ?P ?s', Ht : SYNC = type ?P
         |- prepareForComplete _ ?p ?s' <> _ =>
           apply load_link_inv in H; destruct H as [-> Hp]; subst g;
           rewrite (prepareForComplete_SYNC _ _ _ _ Hp) by congruence
       end.
  all: discriminate.
Qed.

(** On a link whose pair is in place the call returns normally. *)
Lemma finalizeConfiguration_Ok (s : Simulation) (this p : loc) (L P : Link)
    (fuel : nat) :
  links s !! this = Some L ->
  pair_link L = Some p ->
  links s !! p = Some P ->
  exists s1, finalizeConfiguration (S (S fuel)) this s = Ok tt s1.
Proof.
  intros HL Hp HP.
  rewrite (finalizeConfiguration_fuel fuel 0).
  cbn [finalizeConfiguration].
  destruct (decide (this = p)) as [-> | Hne].
  - assert (P = L) by congruence; subst P.
    destruct (type L) eqn:Ht;
      destruct (send_queue L) as [q0 |] eqn:Hq0;
      msimp; eexists; reflexivity.
  - destruct (decide (type P = SYNC)) as [HtP | HtP];
      destruct (type L) eqn:Ht;
      destruct (send_queue P) as [q0 |] eqn:Hq0;
      msimp; eexists; reflexivity.
Qed.

(** Comparison of what two states show of a link, after two calls. *)
Ltac view_queue Hcl :=
  match goal with
  | HL0 : links _ !! _ = Some ?L0
    |- context [match send_queue ?L0 with _ => _ end] =>
      let q := fresh "q" in
      let Hq := fresh "Hq" in
      destruct (send_queue L0) as [q |] eqn:Hq; [| reflexivity];
      let Hs := fresh "Hs" in
      pose proof (Hcl _ _ _ HL0 Hq) as Hs;
      let H1 := fresh in
      let H2 := fresh in
      try (destruct (fresh_twice _ (Live (ActivityQueue.PollingLinkQueue []))
                      _ Hs) as [H1 H2];
           rewrite ?lookup_insert_ne by congruence);
      reflexivity
  end.

Ltac view_eq Hcl :=
  let l := fresh "l" in
  intros l; unfold link_view; mproj;
  repeat match goal with
  | |- context [<[?i := _]> _ !! l] =>
      destruct (decide (i = l)); [subst l |]; repeat minsert; mproj
  end;
  rewrite ?lookup_insert_eq;
  try match goal with
  | |- context [links ?s !! ?l] =>
      let L0 := fresh "L0" in
      let HL0 := fresh "HL0" in
      destruct (links s !! l) as [L0 |] eqn:HL0; [| reflexivity]
  end;
  first [ reflexivity | view_queue Hcl ].

(** A second call, made in the state the first returned in, returns
    too, and shows of every link what the first showed. *)
Lemma finalizeConfiguration_idempotent (s s1 : Simulation) (this : loc)
    (fuel : nat) :
  heap_closed s ->
  finalizeConfiguration (S (S fuel)) this s = Ok tt s1 ->
  exists s2,
    finalizeConfiguration (S (S fuel)) this s1 = Ok tt s2 /\
    forall l, link_view s2 l = link_view s1 l.
Proof.
  intros Hcl.
  rewrite !(finalizeConfiguration_fuel fuel 0).
  destruct (links s !! this) as [L |] eqn:HL;
    [| rewrite finalizeConfiguration_dangling by assumption; discriminate].
  destruct (decide (type L = SYNC)) as [HtL | HtL].
  { rewrite (finalizeConfiguration_SYNC _ _ _ _ HL HtL). intros [= <-].
    eexists. split.
    - apply finalizeConfiguration_SYNC; [apply lookup_insert_eq | exact HtL].
    - intros l. unfold link_view; mproj. rewrite insert_insert_eq.
      reflexivity. }
  cbn [finalizeConfiguration].
  destruct (pair_link L) as [p |] eqn:Hp; [| msimp; discriminate].
  destruct (decide (this = p)) as [-> | Hne].
  - destruct (type L) eqn:Ht; try congruence;
      destruct (send_queue L) as [q0 |] eqn:Hq0;
      msimp; intros [= <-]; msimp; (eexists; split; [reflexivity |]).
    all: view_eq Hcl.
  - destruct (links s !! p) as [P |] eqn:HP; [| msimp; discriminate].
    destruct (decide (type P = SYNC)) as [HtP | HtP];
      destruct (type L) eqn:Ht; try congruence;
      destruct (send_queue P) as [q0 |] eqn:Hq0;
      msimp; intros [= <-]; msimp; (eexists; split; [reflexivity |]).
    all: view_eq Hcl.
Qed.

(** Equality of two states that differ in how often the same members
    were written. *)
Ltac same_state :=
  mproj; unfold with_links; mproj; f_equal;
  apply map_eq; intros i;
  repeat (rewrite lookup_insert; case_decide; subst);
  try reflexivity; try congruence.

(** On a link that is not a polling link a second call changes nothing
    at all. *)
Lemma finalizeConfiguration_twice (s s1 : Simulation) (this : loc) (L : Link)
    (fuel : nat) :
  links s !! this = Some L ->
  type L <> POLL ->
  finalizeConfiguration (S (S fuel)) this s = Ok tt s1 ->
  finalizeConfiguration (S (S fuel)) this s1 = Ok tt s1.
Proof.
  intros HL Hpoll.
  rewrite !(finalizeConfiguration_fuel fuel 0).
  destruct (decide (type L = SYNC)) as [HtL | HtL].
  { rewrite (finalizeConfiguration_SYNC _ _ _ _ HL HtL). intros [= <-].
    erewrite finalizeConfiguration_SYNC;
      [| apply lookup_insert_eq | exact HtL].
    f_equal. same_state. }
  cbn [finalizeConfiguration].
  destruct (pair_link L) as [p |] eqn:Hp; [| msimp; discriminate].
  destruct (decide (this = p)) as [-> | Hne].
  - destruct (type L) eqn:Ht; try congruence;
      destruct (send_queue L) as [q0 |] eqn:Hq0;
      msimp; intros [= <-]; msimp; f_equal; same_state.
  - destruct (links s !! p) as [P |] eqn:HP; [| msimp; discriminate].
    destruct (decide (type P = SYNC)) as [HtP | HtP];
      destruct (type L) eqn:Ht; try congruence;
      destruct (send_queue P) as [q0 |] eqn:Hq0;
      msimp; intros [= <-]; msimp; f_equal; same_state.
Qed.

(** What [prepareForComplete] does on a link that is not [SYNC] and
    whose pair is in place. *)
Lemma prepareForComplete_not_SYNC (s : Simulation) (this p : loc)
    (L P : Link) (fuel : nat) :
  links s !! this = Some L ->
  type L <> SYNC ->
  pair_link L = Some p ->
  links s !! p = Some P ->
  (type L = POLL ->
   send_queue P = None \/
   exists q Q, send_queue P = Some q /\ queues s !! q = Some (Live Q)) ->
  exists s',
    prepareForComplete (S (S fuel)) this s = Ok tt s' /\
    (exists L', links s' !! this = Some L' /\ mode L' = COMPLETE) /\
    (exists P', links s' !! p = Some P' /\ send_queue P' = None) /\
    (type L = POLL ->
     forall q, send_queue P = Some q -> queues s' !! q = Some Freed) /\
    (type L <> POLL -> queues s' = queues s).
Proof.
  intros HL Hsync Hp HP Hq.
  rewrite (prepareForComplete_fuel fuel 0).
  cbn [prepareForComplete].
  assert (Hcases : type L = POLL /\ send_queue P = None \/
                   (type L = POLL /\
                    exists q Q, send_queue P = Some q /\
                                queues s !! q = Some (Live Q)) \/
                   type L <> POLL).
  { destruct (decide (type L = POLL)) as [Ht | Ht]; [| tauto].
    destruct (Hq Ht); tauto. }
  clear Hq.
  destruct (decide (this = p)) as [-> | Hne];
    [assert (L = P) by congruence; subst L |];
    destruct (decide (type P = SYNC)) as [HtP | HtP];
    destruct Hcases as [[Ht Hq] | [(Ht & q & Q & Hq & HQ) | Ht]];
    try congruence;
    msimp;
    (eexists; split; [reflexivity |]); mproj;
    repeat split;
    try (eexists; split; [repeat minsert; reflexivity | reflexivity]);
    try congruence;
    try (intros _ q' Hq'; assert (q' = q) by congruence; subst q';
         apply lookup_insert_eq).
  all: try (intros; congruence).
Qed.

(** C7.  After [prepareForComplete] on a link that is not [SYNC], the
    link's mode is Complete and its pair's [send_queue] is null; when the
    link is a polling link the queue its pair's [send_queue] pointed at
    has been deleted, otherwise no queue has changed.  On a [SYNC] link
    the call sets the mode and changes neither a queue nor the
    [send_queue] of any link. *)
Theorem prepareForComplete_clears_pair (s : Simulation) (this : loc)
    (L : Link) (fuel : nat) :
  (2 <= fuel)%nat ->
  links s !! this = Some L ->
  (type L = SYNC ->
   exists s',
     prepareForComplete fuel this s = Ok tt s' /\
     (mode <$> links s' !! this) = Some COMPLETE /\
     queues s' = queues s /\
     forall l, (send_queue <$> links s' !! l) = (send_queue <$> links s !! l)) /\
  (type L <> SYNC ->
   forall p P,
     pair_link L = Some p ->
     links s !! p = Some P ->
     (type L = POLL ->
      send_queue P = None \/
      exists q Q, send_queue P = Some q /\ queues s !! q = Some (Live Q)) ->
     exists s',
       prepareForComplete fuel this s = Ok tt s' /\
       (exists L', links s' !! this = Some L' /\ mode L' = COMPLETE) /\
       (exists P', links s' !! p = Some P' /\ send_queue P' = None) /\
       (type L = POLL ->
        forall q, send_queue P = Some q -> queues s' !! q = Some Freed) /\
       (type L <> POLL -> queues s' = queues s)).
Proof.
  intros Hfuel HL.
  destruct fuel as [| [| f]]; try lia.
  split.
  - intros Ht. eexists.
    split; [apply (prepareForComplete_SYNC _ _ _ _ HL Ht) |].
    mproj. split; [rewrite lookup_insert_eq; reflexivity |].
    split; [reflexivity |].
    intros l. destruct (decide (this = l)) as [<- | Hne].
    + rewrite lookup_insert_eq, HL. reflexivity.
    + rewrite lookup_insert_ne by assumption. reflexivity.
  - intros Ht p P Hp HP Hq.
    exact (prepareForComplete_not_SYNC s this p L P f HL Ht Hp HP Hq).
Qed.

(** Two polling links in the Run phase, each with its polling queue. *)
Lemma prepareForComplete_clears_pair_witness :
  exists s0 s',
    (setPolling 1 ;; setPolling 2 ;;
     finalizeConfiguration 2 1 ;; finalizeConfiguration 2 2) boot
      = Ok tt s0 /\
    prepareForComplete 2 1 s0 = Ok tt s' /\
    (exists L', links s' !! 1 = Some L' /\ mode L' = COMPLETE) /\
    (exists P', links s' !! 2 = Some P' /\ send_queue P' = None) /\
    queues s' !! 101 = Some Freed.
Proof.
  eexists.
  match goal with
  | |- exists s', ?c boot = Ok tt ?s0 /\ _ =>
      assert (H0 : c boot = Ok tt s0) by (vm_compute; reflexivity)
  end.
  match type of H0 with
  | _ = Ok tt ?s0 =>
      assert (H1 : links s0 !! 1 =
                   Some (mkLink (Some 102) 0 0 1 (Some 2) POLL RUN 5 None))
        by (vm_compute; reflexivity);
      assert (H2 : links s0 !! 2 =
                   Some (mkLink (Some 101) 0 0 1 (Some 1) POLL RUN 6 None))
        by (vm_compute; reflexivity);
      assert (HQ : queues s0 !! 101 =
                   Some (Live (ActivityQueue.PollingLinkQueue [])))
        by (vm_compute; reflexivity);
      destruct (proj2 (prepareForComplete_clears_pair s0 1 _ 2 (le_n 2) H1)
                  ltac:(discriminate) 2 _ eq_refl H2
                  (fun _ => or_intror
                     (ex_intro _ 101 (ex_intro _ _ (conj eq_refl HQ)))))
        as (s' & Hs & HL' & HP' & Hfreed & _)
  end.
  exists s'.
  split; [exact H0 |]. split; [exact Hs |].
  split; [exact HL' |]. split; [exact HP' |].
  apply Hfreed; reflexivity.
Defined.

(** C8.  [finalizeConfiguration] returns in every state and for every
    link: a call uses at most two levels of calls, whatever the pairing
    (a link paired with itself, two links paired with each other, two
    [SYNC] links among them), because the call on the pair is made only
    on a [SYNC] link, which returns, having set its mode, before it
    looks at its own pair.
    With the pair in place the call returns normally.  The traversal is
    idempotent: a second call, made in the state the first returned in,
    returns normally and shows of every link the members and the queue
    that the first call showed; on a link that is not a polling link it
    returns in the very state it was made in.  [prepareForComplete]
    returns in the same way. *)
Theorem finalizeConfiguration_terminates (s : Simulation) (this : loc)
    (fuel : nat) :
  (2 <= fuel)%nat ->
  finalizeConfiguration fuel this s <> OutOfFuel /\
  finalizeConfiguration fuel this s = finalizeConfiguration 2 this s /\
  prepareForComplete fuel this s <> OutOfFuel /\
  (forall L,
      links s !! this = Some L -> type L = SYNC ->
      finalizeConfiguration 1 this s =
        Ok tt (with_links (<[this := set_mode RUN L]> (links s)) s)) /\
  (forall L p P,
      links s !! this = Some L -> pair_link L = Some p ->
      links s !! p = Some P ->
      exists s1, finalizeConfiguration fuel this s = Ok tt s1) /\
  (forall s1,
      heap_closed s ->
      finalizeConfiguration fuel this s = Ok tt s1 ->
      exists s2,
        finalizeConfiguration fuel this s1 = Ok tt s2 /\
        forall l, link_view s2 l = link_view s1 l) /\
  (forall L s1,
      links s !! this = Some L -> type L <> POLL ->
      finalizeConfiguration fuel this s = Ok tt s1 ->
      finalizeConfiguration fuel this s1 = Ok tt s1).
Proof.
  intros Hfuel. destruct fuel as [| [| f]]; try lia.
  split; [apply finalizeConfiguration_returns |].
  split; [apply finalizeConfiguration_fuel |].
  split; [apply prepareForComplete_returns |].
  split; [intros L; apply finalizeConfiguration_SYNC |].
  split; [intros L p P; apply finalizeConfiguration_Ok |].
  split; [intros s1; apply finalizeConfiguration_idempotent |].
  intros L s1. apply finalizeConfiguration_twice.
Qed.

Lemma heap_closed_loopback : heap_closed loopback.
Proof.
  intros l L q Hl Hq. unfold loopback in Hl. cbn [links] in Hl.
  apply lookup_insert_Some in Hl.
  destruct Hl as [[_ <-] | [_ Hl]]; [discriminate Hq |].
  rewrite lookup_empty in Hl. discriminate Hl.
Qed.

Lemma heap_closed_mutual_sync : heap_closed mutual_sync.
Proof.
  intros l L q Hl Hq. unfold mutual_sync in Hl. cbn [links] in Hl.
  apply lookup_insert_Some in Hl.
  destruct Hl as [[_ <-] | [_ Hl]]; [discriminate Hq |].
  apply lookup_insert_Some in Hl.
  destruct Hl as [[_ <-] | [_ Hl]]; [discriminate Hq |].
  rewrite lookup_empty in Hl. discriminate Hl.
Qed.

(** A link paired with itself, and two [SYNC] links paired with each
    other, with more fuel than is used. *)
Lemma finalizeConfiguration_terminates_witness :
  (exists s1 s2,
      finalizeConfiguration 5 1 loopback = Ok tt s1 /\
      finalizeConfiguration 5 1 s1 = Ok tt s2 /\
      forall l, link_view s2 l = link_view s1 l) /\
  finalizeConfiguration 5 1 mutual_sync <> OutOfFuel /\
  finalizeConfiguration 5 1 mutual_sync = finalizeConfiguration 2 1 mutual_sync.
Proof.
  assert (H5 : (2 <= 5)%nat) by lia.
  assert (H1 : links loopback !! 1 = Some (set_pair_link (Some 1) (Link_of_tag 5)))
    by (vm_compute; reflexivity).
  split.
  - destruct (finalizeConfiguration_terminates loopback 1 5 H5)
      as (_ & _ & _ & _ & Hok & Hidem & _).
    destruct (Hok _ 1 _ H1 eq_refl H1) as [s1 Hs1].
    destruct (Hidem s1 heap_closed_loopback Hs1) as (s2 & Hs2 & Hview).
    exists s1, s2. auto.
  - destruct (finalizeConfiguration_terminates mutual_sync 1 5 H5)
      as (Hret & Hfuel & _).
    split; assumption.
Defined.

(* ===================================================================== *)
(** ** The untimed exchange *)
(* ===================================================================== *)

(** Every call of [sendUntimedData] on a link that has a queue counts
    the message, stamps the event and inserts it into that queue,
    whatever the queue is and whatever it holds. *)
Lemma sendUntimedData_inserts (s : Simulation) (this q : loc) (L : Link)
    (Q : ActivityQueue.t) (e : Event.t) :
  links s !! this = Some L ->
  mode L <> RUN ->
  send_queue L = Some q ->
  queues s !! q = Some (Live Q) ->
  sendUntimedData this (Some e) s =
    Ok tt (with_queues
             (<[q := Live (ActivityQueue.insert
                             (Event.setDeliveryInfo (tag L) (delivery_info L)
                                (Event.setDeliveryTime
                                   (untimed_phase s + 1) e)) Q)]>
                (queues s))
             (with_untimed_msg_count (untimed_msg_count s + 1) s)).
Proof.
  intros HL Hm Hq HQ. unfold sendUntimedData. msimp; try reflexivity.
Qed.

(** One call of [recvUntimedData()] when the queue of the pair holds
    nothing, and when it holds something. *)
Lemma recvUntimedData_empty (s : Simulation) (peer this q : loc)
    (P L : Link) (Q : ActivityQueue.t) :
  links s !! peer = Some P ->
  pair_link P = Some this ->
  links s !! this = Some L ->
  send_queue L = Some q ->
  queues s !! q = Some (Live Q) ->
  ActivityQueue.data Q = [] ->
  recvUntimedData peer s = Ok None s.
Proof.
  intros HP Hpair HL Hq HQ Hd. unfold recvUntimedData. munfold. mproj.
  rewrite HP. mproj. rewrite Hpair. mproj. rewrite HL. mproj.
  rewrite Hq. mproj. rewrite HQ. unfold ActivityQueue.empty. rewrite Hd.
  reflexivity.
Qed.

Lemma recvUntimedData_front (s : Simulation) (peer this q : loc)
    (P L : Link) (Q : ActivityQueue.t) (x : Event.t) (rest : list Event.t) :
  links s !! peer = Some P ->
  pair_link P = Some this ->
  links s !! this = Some L ->
  send_queue L = Some q ->
  queues s !! q = Some (Live Q) ->
  ActivityQueue.data Q = x :: rest ->
  recvUntimedData peer s =
    if Event.getDeliveryTime x <=? untimed_phase s
    then Ok (Some x)
           (with_queues
              (<[q := Live (ActivityQueue.with_data rest Q)]> (queues s)) s)
    else Ok None s.
Proof.
  intros HP Hpair HL Hq HQ Hd. unfold recvUntimedData. munfold. mproj.
  rewrite HP. mproj. rewrite Hpair. mproj. rewrite HL. mproj.
  rewrite Hq. mproj. rewrite HQ.
  unfold ActivityQueue.empty, ActivityQueue.front, ActivityQueue.pop.
  rewrite Hd. cbn [negb head tail]. mproj.
  destruct (Event.getDeliveryTime x <=? untimed_phase s); [| reflexivity].
  rewrite HQ. reflexivity.
Qed.

Lemma data_with_data (d : list Event.t) (Q : ActivityQueue.t) :
  ActivityQueue.data (ActivityQueue.with_data d Q) = d.
Proof. destruct Q; reflexivity. Qed.

Lemma with_data_with_data (d d' : list Event.t) (Q : ActivityQueue.t) :
  ActivityQueue.with_data d (ActivityQueue.with_data d' Q)
  = ActivityQueue.with_data d Q.
Proof. destruct Q; reflexivity. Qed.

(** Calls of [recvUntimedData()] serve the queue of the pair from its
    head, one item a call, for as long as the items are due; they change
    nothing but that queue. *)
Lemma recvUntimedData_times_serves (pre post : list Event.t) (s : Simulation)
    (peer this q : loc) (P L : Link) (Q : ActivityQueue.t) :
  links s !! peer = Some P ->
  pair_link P = Some this ->
  links s !! this = Some L ->
  send_queue L = Some q ->
  queues s !! q = Some (Live Q) ->
  ActivityQueue.data Q = pre ++ post ->
  Forall (fun x => Event.getDeliveryTime x <= untimed_phase s) pre ->
  exists s2,
    recvUntimedData_times (length pre) peer s = Ok (map Some pre) s2 /\
    links s2 = links s /\
    untimed_phase s2 = untimed_phase s /\
    queues s2 !! q = Some (Live (ActivityQueue.with_data post Q)).
Proof.
  revert s Q. induction pre as [| x pre IH]; intros s Q HP Hpair HL Hq HQ Hd Hdue.
  - exists s. cbn [length recvUntimedData_times map]. unfold ret.
    split; [reflexivity |]. split; [reflexivity |]. split; [reflexivity |].
    rewrite HQ. cbn [app] in Hd. rewrite <- Hd. destruct Q; reflexivity.
  - cbn [app] in Hd. inversion Hdue as [| ? ? Hx Hrest]; subst.
    apply Z.leb_le in Hx.
    pose proof (recvUntimedData_front s peer this q P L Q x (pre ++ post)
                  HP Hpair HL Hq HQ Hd) as Hone.
    rewrite Hx in Hone.
    set (s1 := with_queues
                 (<[q := Live (ActivityQueue.with_data (pre ++ post) Q)]>
                    (queues s)) s) in *.
    destruct (IH s1 (ActivityQueue.with_data (pre ++ post) Q))
      as (s2 & Hrun & Hl & Hph & Hqs); try assumption.
    + subst s1. mproj. apply lookup_insert_eq.
    + apply data_with_data.
    + exists s2. cbn [length recvUntimedData_times map].
      unfold bind at 1. rewrite Hone. unfold bind at 1. rewrite Hrun.
      split; [reflexivity |]. split; [exact Hl |]. split; [exact Hph |].
      rewrite Hqs, with_data_with_data. reflexivity.
Qed.

(** Where an inserted item sits: somewhere in a TimeVortex, at the tail
    of the other queues, which hold it as it was given. *)
Lemma insert_split (ev : Event.t) (Q : ActivityQueue.t) :
  exists pre post,
    ActivityQueue.data (ActivityQueue.insert ev Q)
      = pre ++ ActivityQueue.admitted ev Q :: post /\
    ((forall d n, Q <> ActivityQueue.TimeVortex d n) ->
     pre = ActivityQueue.data Q /\ post = [] /\
     ActivityQueue.admitted ev Q = ev).
Proof.
  destruct Q as [d n | d | d].
  - destruct (list_elem_of_split _ _
                (admitted_in_insert ev (ActivityQueue.TimeVortex d n)))
      as (pre & post & Hsp).
    exists pre, post. split; [exact Hsp |].
    intros Hno. exfalso. exact (Hno d n eq_refl).
  - exists d, []. split; [reflexivity |]. intros _. repeat split.
  - exists d, []. split; [reflexivity |]. intros _. repeat split.
Qed.

Lemma set_send_queue_same (L : Link) (q : option loc) :
  send_queue L = q -> set_send_queue q L = L.
Proof. intros <-. destruct L; reflexivity. Qed.

(** The state a call of [sendUntimedData] returns in, on first use and
    on every later use. *)
Lemma sendUntimedData_returns (s : Simulation) (this : loc) (L : Link)
    (Q : ActivityQueue.t) (e : Event.t) :
  links s !! this = Some L ->
  mode L <> RUN ->
  match send_queue L with
  | None => Q = ActivityQueue.InitQueue []
  | Some q0 => queues s !! q0 = Some (Live Q)
  end ->
  exists s1 q,
    sendUntimedData this (Some e) s = Ok tt s1 /\
    match send_queue L with
    | None => queues s !! q = None
    | Some q0 => q = q0
    end /\
    links s1 = <[this := set_send_queue (Some q) L]> (links s) /\
    queues s1 !! q =
      Some (Live (ActivityQueue.insert
                    (Event.setDeliveryInfo (tag L) (delivery_info L)
                       (Event.setDeliveryTime (untimed_phase s + 1) e)) Q)) /\
    (forall q', q' <> q -> queues s1 !! q' = queues s !! q') /\
    untimed_msg_count s1 = untimed_msg_count s + 1 /\
    untimed_phase s1 = untimed_phase s.
Proof.
  intros HL Hm HQ.
  destruct (send_queue L) as [q0 |] eqn:Hq.
  - eexists. exists q0.
    split; [apply (sendUntimedData_inserts s this q0 L Q e HL Hm Hq HQ) |].
    mproj. split; [reflexivity |].
    split.
    { rewrite <- Hq, (set_send_queue_same L _ eq_refl).
      symmetry. apply insert_id. exact HL. }
    split; [apply lookup_insert_eq |].
    split; [intros q' Hne; apply lookup_insert_ne; congruence |].
    split; reflexivity.
  - subst Q.
    pose proof (fresh_queue_None (queues s)) as Hfresh.
    set (q := fresh (dom (queues s))) in *.
    eexists. exists q.
    split.
    { unfold sendUntimedData. msimp. fold q. msimp. reflexivity. }
    mproj. split; [exact Hfresh |].
    split; [reflexivity |].
    split; [apply lookup_insert_eq |].
    split; [intros q' Hne; rewrite !lookup_insert_ne by congruence;
            reflexivity |].
    split; reflexivity.
Qed.

(** C6.  On a link that is not in Run mode, every call of
    [sendUntimedData(e)] counts the message in [untimed_msg_count],
    stamps [e] with delivery_time = untimed_phase + 1, with the link's
    tag and delivery_info, and inserts it into the link's queue: on
    first use (null [send_queue]) that is an InitQueue made at a fresh
    address, which then holds the stamped event alone; on every later
    use it is the queue the link has, whatever it holds, and in an init
    queue the event goes behind all that is there.  For a link paired
    with the sender and for every later value of [untimed_phase], calls
    of [recvUntimedData()] serve what is queued before the event, as
    long as it is due, and the next call returns the event exactly when
    its delivery_time is at most [untimed_phase], taking it out of the
    queue, and null otherwise, changing nothing; once the event has been
    returned and nothing is queued behind it, a further call returns
    null. *)
Theorem untimed_exchange (s : Simulation) (this peer : loc) (L P : Link)
    (Q : ActivityQueue.t) (e : Event.t) :
  links s !! this = Some L ->
  mode L <> RUN ->
  match send_queue L with
  | None => Q = ActivityQueue.InitQueue []
  | Some q0 => queues s !! q0 = Some (Live Q)
  end ->
  links s !! peer = Some P ->
  pair_link P = Some this ->
  let ev := Event.setDeliveryInfo (tag L) (delivery_info L)
              (Event.setDeliveryTime (untimed_phase s + 1) e) in
  let e' := ActivityQueue.admitted ev Q in
  exists s1 q pre post,
    sendUntimedData this (Some e) s = Ok tt s1 /\
    match send_queue L with
    | None => queues s !! q = None
    | Some q0 => q = q0
    end /\
    (send_queue <$> links s1 !! this) = Some (Some q) /\
    queues s1 !! q = Some (Live (ActivityQueue.insert ev Q)) /\
    (forall q', q' <> q -> queues s1 !! q' = queues s !! q') /\
    ActivityQueue.data (ActivityQueue.insert ev Q) = pre ++ e' :: post /\
    ((forall d n, Q <> ActivityQueue.TimeVortex d n) ->
     pre = ActivityQueue.data Q /\ post = [] /\ e' = ev) /\
    untimed_msg_count s1 = untimed_msg_count s + 1 /\
    Event.getDeliveryTime e' = wrap64 (untimed_phase s + 1) /\
    (0 <= untimed_phase s + 1 < 2 ^ 64 ->
     Event.getDeliveryTime e' = untimed_phase s + 1) /\
    Event.getOrderTag e' = to_uint32 (tag L) /\
    Event.delivery_info e' = delivery_info L /\
    Event.same_object e e' /\
    forall phase,
      Forall (fun x => Event.getDeliveryTime x <= phase) pre ->
      exists s2,
        recvUntimedData_times (length pre) peer (with_untimed_phase phase s1)
          = Ok (map Some pre) s2 /\
        queues s2 !! q =
          Some (Live (ActivityQueue.with_data (e' :: post)
                        (ActivityQueue.insert ev Q))) /\
        (Event.getDeliveryTime e' <= phase ->
         exists s3,
           recvUntimedData peer s2 = Ok (Some e') s3 /\
           queues s3 !! q =
             Some (Live (ActivityQueue.with_data post
                           (ActivityQueue.insert ev Q))) /\
           (post = [] -> recvUntimedData peer s3 = Ok None s3)) /\
        (phase < Event.getDeliveryTime e' ->
         recvUntimedData peer s2 = Ok None s2).
Proof.
  intros HL Hm HQ HP Hpair ev e'.
  destruct (stamp_spec (tag L) (delivery_info L) (untimed_phase s + 1) e)
    as (Htime & Htag & Hprio & Hinfo & Hcls).
  fold ev in Htime, Htag, Hprio, Hinfo, Hcls.
  destruct (admitted_stamp ev Q) as (Atime & Atag & Aprio & Ainfo & Acls).
  fold e' in Atime, Atag, Aprio, Ainfo, Acls.
  destruct (insert_split ev Q) as (pre & post & Hsp & Hfifo).
  fold e' in Hsp, Hfifo.
  destruct (sendUntimedData_returns s this L Q e HL Hm HQ) as (s1 & q & Hsend).
  fold ev in Hsend.
  destruct Hsend as (Hs & Hfresh & Hlinks & Hqueue & Hother & Hcount
                     & Hphase).
  exists s1, q, pre, post.
  split; [exact Hs |].
  split; [exact Hfresh |].
  split; [rewrite Hlinks, lookup_insert_eq; reflexivity |].
  split; [exact Hqueue |].
  split; [exact Hother |].
  split; [exact Hsp |].
  split; [exact Hfifo |].
  split; [exact Hcount |].
  split; [rewrite Atime; exact Htime |].
  split; [intros Hr; rewrite Atime, Htime; apply wrap64_small; exact Hr |].
  split; [rewrite Atag; exact Htag |].
  split; [rewrite Ainfo; exact Hinfo |].
  split; [split; [rewrite Acls; exact Hcls | rewrite Aprio; exact Hprio] |].
  (* the receiving side *)
  assert (Hthis : links s1 !! this = Some (set_send_queue (Some q) L))
    by (rewrite Hlinks; apply lookup_insert_eq).
  assert (Hpeer : exists P', links s1 !! peer = Some P' /\
                             pair_link P' = Some this).
  { rewrite Hlinks. destruct (decide (this = peer)) as [<- | Hne].
    - rewrite lookup_insert_eq. eexists. split; [reflexivity |].
      mproj. congruence.
    - rewrite lookup_insert_ne by assumption. eauto. }
  destruct Hpeer as (P' & HP' & Hpair').
  intros phase Hdue.
  destruct (recvUntimedData_times_serves pre (e' :: post)
              (with_untimed_phase phase s1) peer this q P'
              (set_send_queue (Some q) L) (ActivityQueue.insert ev Q)
              HP' Hpair' Hthis eq_refl Hqueue Hsp Hdue)
    as (s2 & Hrun & Hl2 & Hph2 & Hq2).
  cbn [untimed_phase with_untimed_phase links] in Hl2, Hph2.
  exists s2. split; [exact Hrun |]. split; [exact Hq2 |].
  assert (HP2 : links s2 !! peer = Some P') by (rewrite Hl2; exact HP').
  assert (HL2 : links s2 !! this = Some (set_send_queue (Some q) L))
    by (rewrite Hl2; exact Hthis).
  pose proof (recvUntimedData_front s2 peer this q P' _ _ e' post
                HP2 Hpair' HL2 eq_refl Hq2 (data_with_data _ _)) as Hone.
  rewrite Hph2 in Hone.
  split.
  - intros Hready. apply Z.leb_le in Hready. rewrite Hready in Hone.
    eexists. split; [exact Hone |].
    split; [mproj; rewrite lookup_insert_eq, with_data_with_data;
            reflexivity |].
    intros ->.
    eapply (recvUntimedData_empty _ peer this q P');
      [exact HP2 | exact Hpair' | exact HL2 | reflexivity
      | mproj; apply lookup_insert_eq | apply data_with_data].
  - intros Hlate. apply Z.leb_gt in Hlate. rewrite Hlate in Hone.
    exact Hone.
Qed.

(** The sixth boundary scenario, and a second send behind the first:
    with [untimed_phase] 0 the event is stamped 1; it is not returned
    while the phase is 0, it is returned when the phase is 1, and a
    second call then returns null.  A second event sent on the same link
    is counted and stamped too, goes behind the first in the same queue,
    and is returned after it. *)
Lemma untimed_exchange_witness :
  let e1 := Event.setDeliveryInfo 6 0 (Event.setDeliveryTime 1 user_event) in
  let e2 := Event.setDeliveryInfo 6 0
              (Event.setDeliveryTime 1 (Event.new (Event.UserEvent 8))) in
  exists s0 s1 s2 s3 s4,
    sendUntimedData 2 (Some user_event) boot = Ok tt s0 /\
    Event.getDeliveryTime e1 = 1 /\
    recvUntimedData 1 (with_untimed_phase 0 s0)
      = Ok None (with_untimed_phase 0 s0) /\
    recvUntimedData 1 (with_untimed_phase 1 s0) = Ok (Some e1) s2 /\
    recvUntimedData 1 s2 = Ok None s2 /\
    sendUntimedData 2 (Some (Event.new (Event.UserEvent 8))) s0 = Ok tt s1 /\
    untimed_msg_count s1 = 2 /\
    queues s1 !! 101 = Some (Live (ActivityQueue.InitQueue [e1; e2])) /\
    recvUntimedData_times 1 1 (with_untimed_phase 1 s1) = Ok [Some e1] s3 /\
    recvUntimedData 1 s3 = Ok (Some e2) s4 /\
    recvUntimedData 1 s4 = Ok None s4.
Proof.
  intros e1 e2.
  assert (H1 : links boot !! 1 = Some (set_pair_link (Some 2) (Link_of_tag 5)))
    by (vm_compute; reflexivity).
  assert (H2 : links boot !! 2 = Some (set_pair_link (Some 1) (Link_of_tag 6)))
    by (vm_compute; reflexivity).
  (* first use *)
  destruct (untimed_exchange boot 2 1 _ _ (ActivityQueue.InitQueue [])
              user_event H2 ltac:(discriminate) eq_refl H1 eq_refl)
    as (s0 & q & pre & post & Hs0 & _ & _ & _ & _ & _ & Hfifo & _
        & _ & _ & _ & _ & _ & Hrecv).
  destruct Hfifo as (-> & -> & _); [discriminate |].
  pose (S0 := mkSim 0 0 1 100
                (<[1 := set_pair_link (Some 2) (Link_of_tag 5)]>
                   (<[2 := set_send_queue (Some 101)
                             (set_pair_link (Some 1) (Link_of_tag 6))]> ∅))
                (<[100 := Live (ActivityQueue.TimeVortex [] 0)]>
                   (<[101 := Live (ActivityQueue.InitQueue [e1])]> ∅)) []).
  assert (E : sendUntimedData 2 (Some user_event) boot = Ok tt S0)
    by (vm_compute; reflexivity).
  rewrite E in Hs0. injection Hs0 as <-.
  destruct (Hrecv 0 (Forall_nil_2 _)) as (sa & Hsa & _ & _ & Hlate).
  injection Hsa as <-.
  destruct (Hrecv 1 (Forall_nil_2 _)) as (sb & Hsb & _ & Hready & _).
  injection Hsb as <-.
  destruct Hready as (s2 & Hr1 & _ & Hr2); [vm_compute; discriminate |].
  specialize (Hr2 eq_refl).
  specialize (Hlate ltac:(vm_compute; reflexivity)).
  (* a second send on the same link *)
  assert (Ha : links S0 !! 2 =
               Some (set_send_queue (Some 101)
                       (set_pair_link (Some 1) (Link_of_tag 6))))
    by (vm_compute; reflexivity).
  assert (Hb : links S0 !! 1 = Some (set_pair_link (Some 2) (Link_of_tag 5)))
    by (vm_compute; reflexivity).
  assert (Hc : queues S0 !! 101 = Some (Live (ActivityQueue.InitQueue [e1])))
    by (vm_compute; reflexivity).
  destruct (untimed_exchange S0 2 1 _ _ (ActivityQueue.InitQueue [e1])
              (Event.new (Event.UserEvent 8)) Ha ltac:(discriminate) Hc Hb
              eq_refl)
    as (s1 & q' & pre' & post' & Hs1 & Hq & _ & Hq1 & _ & _ & Hfifo & Hc1
        & _ & _ & _ & _ & _ & Hrecv1).
  destruct Hfifo as (-> & -> & _); [discriminate |].
  cbn [send_queue set_send_queue] in Hq. subst q'.
  destruct (Hrecv1 1) as (s3 & Hr3 & _ & Hready & _).
  { apply Forall_cons_2; [vm_compute; discriminate | apply Forall_nil_2]. }
  destruct Hready as (s4 & Hr4 & _ & Hr5); [vm_compute; discriminate |].
  specialize (Hr5 eq_refl).
  exists S0, s1, s2, s3, s4.
  split; [exact E |].
  split; [reflexivity |].
  split; [exact Hlate |].
  split; [exact Hr1 |].
  split; [exact Hr2 |].
  split; [exact Hs1 |].
  split; [exact Hc1 |].
  split; [exact Hq1 |].
  split; [exact Hr3 |].
  split; [exact Hr4 |].
  exact Hr5.
Defined.

(* ===================================================================== *)
(** ** Where the code parts from its own words *)
(* ===================================================================== *)

(** C3.  [finalizeConfiguration] on a polling link whose pair has sent
    untimed data: the pair's init queue, at address 101, is still live
    and still holds the event after the call; the pair's [send_queue]
    has been pointed at the new polling queue without the init queue
    having been deleted.  On a link that is neither polling nor handler
    the pair's [send_queue] still points at the init queue. *)
Theorem finalizeConfiguration_keeps_init_queue :
  let e' := Event.setDeliveryInfo 6 0 (Event.setDeliveryTime 1 user_event) in
  (exists s0 s1,
      (setPolling 1 ;; sendUntimedData 2 (Some user_event)) boot = Ok tt s0 /\
      (send_queue <$> links s0 !! 2) = Some (Some 101) /\
      queues s0 !! 101 = Some (Live (ActivityQueue.InitQueue [e'])) /\
      finalizeConfiguration 2 1 s0 = Ok tt s1 /\
      queues s1 !! 101 = Some (Live (ActivityQueue.InitQueue [e'])) /\
      (send_queue <$> links s1 !! 2) = Some (Some 102) /\
      queues s1 !! 102 = Some (Live (ActivityQueue.PollingLinkQueue []))) /\
  (exists s0 s1,
      sendUntimedData 2 (Some user_event) boot = Ok tt s0 /\
      finalizeConfiguration 2 1 s0 = Ok tt s1 /\
      (send_queue <$> links s1 !! 2) = Some (Some 101) /\
      queues s1 !! 101 = Some (Live (ActivityQueue.InitQueue [e']))).
Proof.
  intros e'. split.
  - eexists. eexists.
    split; [vm_compute; reflexivity |].
    split; [vm_compute; reflexivity |].
    split; [vm_compute; reflexivity |].
    split; [vm_compute; reflexivity |].
    repeat split.
  - eexists. eexists.
    split; [vm_compute; reflexivity |].
    split; [vm_compute; reflexivity |].
    repeat split.
Qed.

(** No call of [finalizeConfiguration] deletes a queue or changes what
    a queue holds. *)
Lemma finalizeConfiguration_deletes_nothing (s s1 : Simulation) (this : loc)
    (fuel : nat) (q : loc) (c : Cell) :
  finalizeConfiguration (S (S fuel)) this s = Ok tt s1 ->
  queues s !! q = Some c ->
  queues s1 !! q = Some c.
Proof.
  rewrite (finalizeConfiguration_fuel fuel 0).
  intros Hrun Hq. revert Hrun.
  assert (Hne : q <> fresh (dom (queues s))).
  { intros ->. rewrite fresh_queue_None in Hq. discriminate. }
  destruct (links s !! this) as [L |] eqn:HL;
    [| rewrite finalizeConfiguration_dangling by assumption; discriminate].
  destruct (decide (type L = SYNC)) as [HtL | HtL].
  { rewrite (finalizeConfiguration_SYNC _ _ _ _ HL HtL). intros [= <-].
    exact Hq. }
  cbn [finalizeConfiguration].
  destruct (pair_link L) as [p |] eqn:Hp; [| msimp; discriminate].
  destruct (decide (this = p)) as [-> | Hne'].
  - destruct (type L) eqn:Ht; try congruence;
      destruct (send_queue L) as [q0 |] eqn:Hq0;
      msimp; intros [= <-]; mproj;
      rewrite ?lookup_insert_ne by congruence; exact Hq.
  - destruct (links s !! p) as [P |] eqn:HP; [| msimp; discriminate].
    destruct (decide (type P = SYNC)) as [HtP | HtP];
      destruct (type L) eqn:Ht; try congruence;
      destruct (send_queue P) as [q0 |] eqn:Hq0;
      msimp; intros [= <-]; mproj;
      rewrite ?lookup_insert_ne by congruence; exact Hq.
Qed.

(** C4.  [recv()] on a polling link outside the Run phase does not end
    in the fatal error.  In the Init phase, when the pair has sent
    untimed data, it returns null; when the pair has sent nothing it
    dereferences the null [send_queue] of the pair.  In the Complete
    phase, at time 50, it returns the event that the pair has sent as
    untimed data. *)
Theorem recv_outside_run_not_fatal :
  (exists s,
      (setPolling 1 ;; sendUntimedData 2 (Some user_event) ;; recv 1) boot
        = Ok None s /\
      (mode <$> links s !! 1) = Some INIT) /\
  (setPolling 1 ;; recv 1) boot = Undefined NullDereference /\
  (exists s,
      (setPolling 1 ;; setPolling 2 ;;
       finalizeConfiguration 2 1 ;; finalizeConfiguration 2 2 ;;
       clock_at 50 ;;
       prepareForComplete 2 1 ;; prepareForComplete 2 2 ;;
       sendUntimedData 2 (Some user_event) ;; recv 1) boot
        = Ok (Some (Event.setDeliveryInfo 6 0
                      (Event.setDeliveryTime 1 user_event))) s /\
      (mode <$> links s !! 1) = Some COMPLETE).
Proof.
  split; [eexists; split; [vm_compute; reflexivity | reflexivity] |].
  split; [vm_compute; reflexivity |].
  eexists; split; [vm_compute; reflexivity | reflexivity].
Qed.

(** On later uses [sendUntimedData] makes no queue: the stamped event
    goes to the tail of the queue the link already has. *)
Lemma sendUntimedData_appends (s : Simulation) (this q : loc) (L : Link)
    (d : list Event.t) (e : Event.t) :
  links s !! this = Some L ->
  mode L <> RUN ->
  send_queue L = Some q ->
  queues s !! q = Some (Live (ActivityQueue.InitQueue d)) ->
  sendUntimedData this (Some e) s =
    Ok tt (with_queues
             (<[q := Live (ActivityQueue.InitQueue
                             (d ++ [Event.setDeliveryInfo (tag L)
                                      (delivery_info L)
                                      (Event.setDeliveryTime
                                         (untimed_phase s + 1) e)]))]>
                (queues s))
             (with_untimed_msg_count (untimed_msg_count s + 1) s)).
Proof.
  intros HL Hm Hq HQ. unfold sendUntimedData. msimp; try reflexivity.
Qed.

(** In the Run phase the untimed send is the phase violation. *)
Lemma sendUntimedData_in_run (s : Simulation) (this : loc) (L : Link)
    (data : option Event.t) :
  links s !! this = Some L ->
  mode L = RUN ->
  sendUntimedData this data s = Fatal UntimedDuringRun s.
Proof.
  intros HL Hm. unfold sendUntimedData. msimp; try reflexivity.
Qed.

(** [recv()] on a link that is not a polling link is the kind
    violation. *)
Lemma recv_on_handler_link (s : Simulation) (this : loc) (L : Link) :
  links s !! this = Some L ->
  type L <> POLL ->
  recv this s = Fatal RecvOnHandlerLink s.
Proof.
  intros HL Ht. unfold recv. msimp; try reflexivity.
Qed.

(** [recv()] on a polling link in the Run phase: the head of the queue
    that the pair's [send_queue] points at is returned, and taken out,
    exactly when its delivery time has come. *)
Lemma recv_in_run (s : Simulation) (this p q : loc) (L P : Link)
    (e : Event.t) (d : list Event.t) :
  links s !! this = Some L ->
  type L = POLL ->
  pair_link L = Some p ->
  links s !! p = Some P ->
  send_queue P = Some q ->
  queues s !! q = Some (Live (ActivityQueue.PollingLinkQueue (e :: d))) ->
  recv this s =
    if Event.getDeliveryTime e <=? currentSimCycle s
    then Ok (Some e)
           (with_queues
              (<[q := Live (ActivityQueue.PollingLinkQueue d)]> (queues s)) s)
    else Ok None s.
Proof.
  intros HL Ht Hp HP Hq HQ. unfold recv. msimp.
  cbn [ActivityQueue.empty ActivityQueue.data ActivityQueue.front
       ActivityQueue.pop ActivityQueue.with_data negb head tail].
  destruct (Event.getDeliveryTime e <=? currentSimCycle s); msimp;
    reflexivity.
Qed.

(** The third boundary scenario: [send(3, null)] at time 10 on a link
    of latency 2 puts a NullEvent of time 15 into the TimeVortex;
    executing it calls the handler of the pair, 600, with a null
    pointer. *)
Example send_null_event :
  exists s' ev,
    send_impl 1 3 None running_handlers = Ok tt s' /\
    send_queue_data s' 1 = [ev] /\
    Event.cls ev = Event.NullEvent /\
    Event.getDeliveryTime ev = 15 /\
    Event.getPriority ev = EVENTPRIORITY /\
    Event.execute ev = (600, None).
Proof.
  eexists. eexists.
  split; [vm_compute; reflexivity |].
  split; [vm_compute; reflexivity |].
  repeat split.
Qed.

(** The first two boundary scenarios on the TimeVortex: A (time 10,
    priority 50, tag 2), B (time 10, priority 50, tag 1) and C (time 10,
    priority 40, tag 9), inserted in this order, are served C, B, A; two
    events of time 5 with the same packed word are served in the order
    of insertion. *)
Example timeVortex_order :
  let ev (time prio tag payload : Z) :=
    Event.mk (Activity.setOrderTag tag
                (Activity.setPriority prio (Activity.mk time 0 0)))
             0 (Event.UserEvent payload) in
  map Event.cls
    (ActivityQueue.data
       (ActivityQueue.insert (ev 10 40 9 3)
          (ActivityQueue.insert (ev 10 50 1 2)
             (ActivityQueue.insert (ev 10 50 2 1)
                (ActivityQueue.TimeVortex [] 0)))))
    = [Event.UserEvent 3; Event.UserEvent 2; Event.UserEvent 1] /\
  map Event.cls
    (ActivityQueue.data
       (ActivityQueue.insert (ev 5 50 4 2)
          (ActivityQueue.insert (ev 5 50 4 1)
             (ActivityQueue.TimeVortex [] 0))))
    = [Event.UserEvent 1; Event.UserEvent 2].
Proof. split; reflexivity. Qed.

(* ===================================================================== *)
(** ** More on the comparators and on the packed word *)
(* ===================================================================== *)

(** X1.  For every choice of [(T, P, Q)], [less<T,P,Q>] is a strict weak
    ordering, which is what the sorting algorithms and ordered
    containers it is written for require: it is irreflexive, asymmetric
    and transitive, and being unordered by it is transitive too. *)
Theorem less_strict_weak_order (T P Q : bool) (a b c : Activity.t) :
  Activity.less T P Q a a = false /\
  (Activity.less T P Q a b = true -> Activity.less T P Q b a = false) /\
  (Activity.less T P Q a b = true -> Activity.less T P Q b c = true ->
   Activity.less T P Q a c = true) /\
  (Activity.less T P Q a b = false -> Activity.less T P Q b a = false ->
   Activity.less T P Q b c = false -> Activity.less T P Q c b = false ->
   Activity.less T P Q a c = false /\ Activity.less T P Q c a = false).
Proof.
  split; [apply less_irreflexive |].
  split.
  { intros Hab. apply not_true_is_false. revert Hab.
    rewrite !less_selected.
    destruct a as [ta pa qa], b as [tb pb qb].
    unfold Activity.selected, lex_lt; simpl. destruct T, P, Q; lia. }
  split; [apply less_transitive |].
  intros Hab Hba Hbc Hcb.
  apply not_true_iff_false in Hab, Hba, Hbc, Hcb.
  rewrite less_selected in Hab, Hba, Hbc, Hcb.
  split; apply not_true_iff_false; rewrite less_selected;
    destruct a as [ta pa qa], b as [tb pb qb], c as [tc pc qc];
    unfold Activity.selected, lex_lt in *; simpl in *;
    destruct T, P, Q; lia.
Qed.

(** X2.  [greater<T,P,Q>] is [less<T,P,Q>] with its arguments exchanged;
    with all three fields selected it is the negation of [less] on any two
    activities whose triples differ. *)
Theorem greater_is_converse (T P Q : bool) (a b : Activity.t) :
  Activity.greater T P Q a b = Activity.less T P Q b a /\
  (Activity.triple a <> Activity.triple b ->
   Activity.greater true true true a b
     = negb (Activity.less true true true a b)).
Proof.
  split; [apply greater_less |].
  intros Hne. rewrite greater_less.
  destruct (Activity.less true true true a b) eqn:Hab;
    destruct (Activity.less true true true b a) eqn:Hba; try reflexivity.
  - rewrite less_selected in Hab, Hba.
    destruct a as [ta pa qa], b as [tb pb qb].
    unfold Activity.selected, lex_lt in *; simpl in *. lia.
  - apply not_true_iff_false in Hab, Hba.
    rewrite less_selected in Hab, Hba.
    destruct a as [ta pa qa], b as [tb pb qb].
    unfold Activity.selected, Activity.triple, lex_lt in *; simpl in *.
    exfalso. apply Hne.
    assert (ta = tb) by lia. assert (pa = pb) by lia.
    assert (qa = qb) by lia. congruence.
Qed.

Lemma getOrderTag_mod (a : Activity.t) :
  Activity.getOrderTag a = Activity.priority_order a mod 2 ^ 32.
Proof.
  unfold Activity.getOrderTag, to_uint32.
  rewrite mask_low, Z.land_ones by lia. apply Z.mod_mod. lia.
Qed.

Lemma getPriority_div (a : Activity.t) :
  0 <= Activity.priority_order a < 2 ^ 63 ->
  Activity.getPriority a = Activity.priority_order a / 2 ^ 32.
Proof.
  intros H. unfold Activity.getPriority.
  rewrite Z.shiftr_div_pow2 by lia. apply to_int32_small.
  split.
  - pose proof (Z.div_pos (Activity.priority_order a) (2 ^ 32)). lia.
  - apply Z.div_lt_upper_bound; lia.
Qed.

(** X3.  The packed word is priority * 2^32 + order tag, so that one
    comparison of packed words orders by priority first and by order tag
    second: for activities whose priority is not negative,
    [less<false,true,false>] is the lexicographic order on
    (getPriority, getOrderTag). *)
Theorem packed_word_orders_by_priority_then_tag (a b : Activity.t) :
  0 <= Activity.priority_order a < 2 ^ 63 ->
  0 <= Activity.priority_order b < 2 ^ 63 ->
  Activity.priority_order a
    = Activity.getPriority a * 2 ^ 32 + Activity.getOrderTag a /\
  0 <= Activity.getPriority a < 2 ^ 31 /\
  0 <= Activity.getOrderTag a < 2 ^ 32 /\
  (Activity.less false true false a b = true <->
   Activity.getPriority a < Activity.getPriority b \/
   (Activity.getPriority a = Activity.getPriority b /\
    Activity.getOrderTag a < Activity.getOrderTag b)).
Proof.
  intros Ha Hb.
  rewrite (getPriority_div a Ha), (getPriority_div b Hb), !getOrderTag_mod.
  pose proof (Z.div_mod (Activity.priority_order a) (2 ^ 32)) as Da.
  pose proof (Z.div_mod (Activity.priority_order b) (2 ^ 32)) as Db.
  pose proof (Z.mod_pos_bound (Activity.priority_order a) (2 ^ 32)) as Ma.
  pose proof (Z.mod_pos_bound (Activity.priority_order b) (2 ^ 32)) as Mb.
  assert (0 <= Activity.priority_order a / 2 ^ 32 < 2 ^ 31).
  { split; [apply Z.div_pos; lia | apply Z.div_lt_upper_bound; lia]. }
  assert (0 <= Activity.priority_order b / 2 ^ 32 < 2 ^ 31).
  { split; [apply Z.div_pos; lia | apply Z.div_lt_upper_bound; lia]. }
  split; [lia |]. split; [lia |]. split; [lia |].
  rewrite less_selected. unfold Activity.selected, lex_lt. lia.
Qed.

Lemma packed_word_orders_by_priority_then_tag_witness :
  let A := Activity.setOrderTag 2 (Activity.setPriority 50 Activity.new) in
  let C := Activity.setOrderTag 9 (Activity.setPriority 40 Activity.new) in
  Activity.priority_order C = 40 * 2 ^ 32 + 9 /\
  Activity.less false true false C A = true.
Proof.
  intros A C.
  destruct (packed_word_orders_by_priority_then_tag C A)
    as (Hw & _ & _ & Hless); [vm_compute; split; congruence
                             | vm_compute; split; congruence |].
  split; [exact Hw |].
  apply Hless. left. vm_compute. reflexivity.
Defined.

(* ===================================================================== *)
(** ** Events: delivery information, identifiers, tracking *)
(* ===================================================================== *)

(** X4.  [setDeliveryInfo(tag, info)] is read back by [getTag()] (as a
    32-bit word) and [getDeliveryLink()], and touches neither the
    priority, nor the delivery time, nor the queue order, nor the class
    of the event; on an event fresh from its constructor the priority
    it keeps is [EVENTPRIORITY]. *)
Theorem setDeliveryInfo_round_trip (tag info : Z) (e : Event.t)
    (c : Event.class) :
  let e' := Event.setDeliveryInfo tag info e in
  Event.getTag e' = to_uint32 tag /\
  Event.getDeliveryLink e' = info /\
  Event.getPriority e' = Event.getPriority e /\
  Event.getDeliveryTime e' = Event.getDeliveryTime e /\
  Activity.getQueueOrder (Event.activity e')
    = Activity.getQueueOrder (Event.activity e) /\
  Event.cls e' = Event.cls e /\
  Event.getPriority (Event.setDeliveryInfo tag info (Event.new c))
    = EVENTPRIORITY.
Proof.
  cbv zeta. unfold Event.getTag, Event.getOrderTag, Event.getPriority. cbn.
  rewrite getOrderTag_setOrderTag, !getPriority_setOrderTag,
    getPriority_setPriority.
  repeat split.
Qed.

Lemma generate_elem (n : nat) (rank c : Z) (id : EventId.id_type) :
  0 <= c < 2 ^ 64 ->
  id ∈ EventId.generate n rank c ->
  exists i, 0 <= i < Z.of_nat n /\ id = (wrap64 (c + i), to_int32 rank).
Proof.
  revert c. induction n as [| n IH]; intros c Hc Hin.
  - inversion Hin.
  - cbn [EventId.generate EventId.generateUniqueId] in Hin.
    apply elem_of_cons in Hin. destruct Hin as [-> | Hin].
    + exists 0. split; [lia |]. rewrite Z.add_0_r, wrap64_small by lia.
      reflexivity.
    + apply IH in Hin; [| apply wrap64_range].
      destruct Hin as (i & Hi & ->).
      exists (i + 1). split; [lia |]. f_equal.
      unfold wrap64. rewrite Z.add_mod_idemp_l by lia. f_equal. lia.
Qed.

(** X5.  The identifiers that [generateUniqueId] gives on one rank are
    pairwise distinct for as long as no more than 2^64 of them have been
    asked for, and none of them is [NO_ID] unless the rank reads -1 as
    an [int]. *)
Theorem generateUniqueId_unique (n : nat) (rank c : Z) :
  0 <= c < 2 ^ 64 ->
  Z.of_nat n <= 2 ^ 64 ->
  NoDup (EventId.generate n rank c) /\
  (to_int32 rank <> -1 -> EventId.NO_ID ∉ EventId.generate n rank c).
Proof.
  intros Hc Hn. split.
  - revert c Hc Hn. induction n as [| n IH]; intros c Hc Hn.
    + constructor.
    + cbn [EventId.generate EventId.generateUniqueId].
      constructor.
      * intros Hin. apply generate_elem in Hin; [| apply wrap64_range].
        destruct Hin as (i & Hi & Heq).
        injection Heq as Heq. unfold wrap64 in Heq.
        rewrite Z.add_mod_idemp_l in Heq by lia.
        assert (Hs : (c + 1 + i) mod 2 ^ 64 = c + 1 + i \/
                     (c + 1 + i) mod 2 ^ 64 = c + 1 + i - 2 ^ 64).
        { destruct (Z.lt_ge_cases (c + 1 + i) (2 ^ 64)).
          - left. apply Z.mod_small. lia.
          - right.
            replace (c + 1 + i) with ((c + 1 + i - 2 ^ 64) + 1 * 2 ^ 64)
              at 1 by lia.
            rewrite Z.mod_add by lia. apply Z.mod_small. lia. }
        lia.
      * apply IH; [apply wrap64_range | lia].
  - intros Hr Hin. apply generate_elem in Hin; [| exact Hc].
    destruct Hin as (i & _ & Heq). unfold EventId.NO_ID in Heq.
    injection Heq as _ Heq. congruence.
Qed.

(** Three identifiers asked for when the counter is two short of its
    end: the counter wraps and they are still distinct. *)
Lemma generateUniqueId_unique_witness :
  NoDup (EventId.generate 3 0 (2 ^ 64 - 2)) /\
  EventId.generate 3 0 (2 ^ 64 - 2)
    = [(2 ^ 64 - 2, 0); (2 ^ 64 - 1, 0); (0, 0)].
Proof.
  split; [| reflexivity].
  apply (generateUniqueId_unique 3 0 (2 ^ 64 - 2)); lia.
Defined.

Lemma last_cons_default {A : Type} (l : list A) (x d : A) :
  List.last (x :: l) d = List.last l x.
Proof.
  revert x d. induction l as [| y l IH]; intros x d; [reflexivity |].
  change (List.last (x :: y :: l) d) with (List.last (y :: l) d).
  rewrite !IH. reflexivity.
Qed.

Lemma hops_first_kept
    (hs : list ((String.string * String.string * String.string) *
                (String.string * String.string * String.string)))
    (e : EventTracking.t) :
  EventTracking.first_comp e <> String.EmptyString ->
  EventTracking.first_comp (EventTracking.hops hs e)
    = EventTracking.first_comp e /\
  EventTracking.first_type (EventTracking.hops hs e)
    = EventTracking.first_type e /\
  EventTracking.first_port (EventTracking.hops hs e)
    = EventTracking.first_port e.
Proof.
  revert e. induction hs as [| [[[sc st] sp] [[rc rt] rp]] hs IH]; intros e He.
  - repeat split.
  - unfold EventTracking.hops in *.
    cbn [fold_left fst snd EventTracking.hop].
    assert (Hs : EventTracking.addSendComponent sc st sp e = e).
    { unfold EventTracking.addSendComponent.
      destruct (String.eqb_spec (EventTracking.first_comp e)
                  String.EmptyString); congruence. }
    rewrite Hs.
    destruct (IH (EventTracking.addRecvComponent rc rt rp e) He)
      as (H1 & H2 & H3).
    rewrite H1, H2, H3. repeat split.
Qed.

Lemma hops_last
    (hs : list ((String.string * String.string * String.string) *
                (String.string * String.string * String.string)))
    (e : EventTracking.t) :
  (EventTracking.last_comp (EventTracking.hops hs e),
   EventTracking.last_type (EventTracking.hops hs e),
   EventTracking.last_port (EventTracking.hops hs e))
  = List.last (map snd hs)
         (EventTracking.last_comp e, EventTracking.last_type e,
          EventTracking.last_port e).
Proof.
  revert e. induction hs as [| [[[sc st] sp] [[rc rt] rp]] hs IH]; intros e.
  - reflexivity.
  - unfold EventTracking.hops in *.
    cbn [fold_left fst snd EventTracking.hop map].
    rewrite IH. cbn [EventTracking.addRecvComponent EventTracking.last_comp
      EventTracking.last_type EventTracking.last_port].
    symmetry. apply last_cons_default.
Qed.

(** X6.  Event tracking records the first sender once and the last
    receiver always: after a first hop whose sender has a component
    name, and any further hops, the event still names that first
    sender, with its type and port, and names the receiver of the last
    hop. *)
Theorem tracking_first_sender_last_receiver
    (s r : String.string * String.string * String.string)
    (hs : list ((String.string * String.string * String.string) *
                (String.string * String.string * String.string)))
    (e : EventTracking.t) :
  EventTracking.first_comp e = String.EmptyString ->
  fst (fst s) <> String.EmptyString ->
  let e' := EventTracking.hops ((s, r) :: hs) e in
  (EventTracking.first_comp e', EventTracking.first_type e',
   EventTracking.first_port e') = s /\
  (EventTracking.last_comp e', EventTracking.last_type e',
   EventTracking.last_port e') = List.last (map snd hs) r.
Proof.
  intros He Hs. destruct s as [[sc st] sp], r as [[rc rt] rp].
  cbv zeta. split.
  - unfold EventTracking.hops. cbn [fold_left fst snd EventTracking.hop].
    fold (EventTracking.hops hs
            (EventTracking.addRecvComponent rc rt rp
               (EventTracking.addSendComponent sc st sp e))).
    assert (Hfirst : EventTracking.addSendComponent sc st sp e
                     = EventTracking.mk sc st sp (EventTracking.last_comp e)
                         (EventTracking.last_type e)
                         (EventTracking.last_port e)).
    { unfold EventTracking.addSendComponent. rewrite He. reflexivity. }
    rewrite Hfirst.
    destruct (hops_first_kept hs
                (EventTracking.addRecvComponent rc rt rp
                   (EventTracking.mk sc st sp (EventTracking.last_comp e)
                      (EventTracking.last_type e)
                      (EventTracking.last_port e))))
      as (H1 & H2 & H3); [exact Hs |].
    rewrite H1, H2, H3. reflexivity.
  - rewrite hops_last. cbn [map snd]. apply last_cons_default.
Qed.

Lemma tracking_first_sender_last_receiver_witness :
  let a := (String.String (Ascii.ascii_of_nat 97) String.EmptyString,
            String.String (Ascii.ascii_of_nat 116) String.EmptyString,
            String.String (Ascii.ascii_of_nat 112) String.EmptyString) in
  let b := (String.String (Ascii.ascii_of_nat 98) String.EmptyString,
            String.String (Ascii.ascii_of_nat 116) String.EmptyString,
            String.String (Ascii.ascii_of_nat 113) String.EmptyString) in
  let c := (String.String (Ascii.ascii_of_nat 99) String.EmptyString,
            String.String (Ascii.ascii_of_nat 117) String.EmptyString,
            String.String (Ascii.ascii_of_nat 114) String.EmptyString) in
  let e' := EventTracking.hops [(a, b); (b, c)] EventTracking.new in
  (EventTracking.first_comp e', EventTracking.first_type e',
   EventTracking.first_port e') = a /\
  (EventTracking.last_comp e', EventTracking.last_type e',
   EventTracking.last_port e') = c.
Proof.
  intros a b c.
  apply (tracking_first_sender_last_receiver a b [(b, c)] EventTracking.new).
  - reflexivity.
  - discriminate.
Defined.

(** X7.  A sender whose component name is empty does not take the place
    of the first sender: its type and port are written, and the next
    sender overwrites all three. *)
Theorem tracking_unnamed_sender_overwritten
    (t p c' t' p' : String.string) (e : EventTracking.t) :
  EventTracking.first_comp e = String.EmptyString ->
  let e1 := EventTracking.addSendComponent String.EmptyString t p e in
  let e2 := EventTracking.addSendComponent c' t' p' e1 in
  (EventTracking.first_comp e1, EventTracking.first_type e1,
   EventTracking.first_port e1) = (String.EmptyString, t, p) /\
  (EventTracking.first_comp e2, EventTracking.first_type e2,
   EventTracking.first_port e2) = (c', t', p').
Proof.
  intros He. cbv zeta. unfold EventTracking.addSendComponent.
  rewrite He. cbn. split; reflexivity.
Qed.

Lemma tracking_unnamed_sender_overwritten_witness :
  let t := String.String (Ascii.ascii_of_nat 116) String.EmptyString in
  let c := String.String (Ascii.ascii_of_nat 99) String.EmptyString in
  EventTracking.first_type
    (EventTracking.addSendComponent String.EmptyString t t EventTracking.new)
    = t /\
  EventTracking.first_comp
    (EventTracking.addSendComponent c c c
       (EventTracking.addSendComponent String.EmptyString t t
          EventTracking.new)) = c.
Proof.
  intros t c.
  destruct (tracking_unnamed_sender_overwritten t t c c c EventTracking.new
              eq_refl) as [H1 H2].
  split; [congruence | congruence].
Defined.

(* ===================================================================== *)
(** ** Handlers and polling *)
(* ===================================================================== *)

(** X8.  The two kind violations: [recv()] on a link that is not a
    polling link, and [setFunctor(h)] on a polling link, end in a fatal
    error in whatever mode the link is, and the process is terminated in
    the state in which the call was made. *)
Theorem kind_violations (s : Simulation) (this : loc) (L : Link) (h : Z) :
  links s !! this = Some L ->
  (type L <> POLL -> recv this s = Fatal RecvOnHandlerLink s) /\
  (type L = POLL -> setFunctor this h s = Fatal SetFunctorOnPollingLink s).
Proof.
  intros HL. split; intros Ht.
  - apply (recv_on_handler_link s this L HL Ht).
  - unfold setFunctor. msimp; try reflexivity.
Qed.

Lemma kind_violations_witness :
  recv 1 boot = Fatal RecvOnHandlerLink boot /\
  setFunctor 1 600
    (with_links (<[1 := set_type POLL (set_pair_link (Some 2) (Link_of_tag 5))]>
                   (links boot)) boot)
  = Fatal SetFunctorOnPollingLink
      (with_links (<[1 := set_type POLL (set_pair_link (Some 2) (Link_of_tag 5))]>
                     (links boot)) boot).
Proof.
  assert (H1 : links boot !! 1 = Some (set_pair_link (Some 2) (Link_of_tag 5)))
    by (vm_compute; reflexivity).
  split.
  - apply (proj1 (kind_violations boot 1 _ 0 H1)). discriminate.
  - apply (proj2 (kind_violations _ 1 _ 600 (lookup_insert_eq _ _ _))).
    reflexivity.
Defined.




(** X10.  [recv()] never hands out an event before its time and never
    changes anything but the queue it serves from: when it returns an
    event, the link is a polling link, the event was at the front of the
    queue that the pair's [send_queue] points at, its delivery time is
    not later than the clock, and the state differs only in that queue
    having been popped; when it returns null the state is the one the
    call was made in. *)
Theorem recv_safety (s s' : Simulation) (this : loc) (r : option Event.t) :
  recv this s = Ok r s' ->
  match r with
  | Some e =>
      exists L p P q Q,
        links s !! this = Some L /\ type L = POLL /\
        pair_link L = Some p /\ links s !! p = Some P /\
        send_queue P = Some q /\ queues s !! q = Some (Live Q) /\
        ActivityQueue.front Q = Some e /\
        Event.getDeliveryTime e <= currentSimCycle s /\
        s' = with_queues (<[q := Live (ActivityQueue.pop Q)]> (queues s)) s
  | None => s' = s
  end.
Proof.
  unfold recv. munfold. mproj.
  destruct (links s !! this) as [L |] eqn:HL; [| discriminate].
  destruct (decide (type L <> POLL)) as [Ht | Ht]; [discriminate |].
  apply dec_stable in Ht. mproj.
  destruct (pair_link L) as [p |] eqn:Hp; [| discriminate]. mproj.
  destruct (links s !! p) as [P |] eqn:HP; [| discriminate]. mproj.
  destruct (send_queue P) as [q |] eqn:Hq; [| discriminate]. mproj.
  destruct (queues s !! q) as [[Q |] |] eqn:HQ; try discriminate. mproj.
  destruct (ActivityQueue.empty Q) eqn:He; cbn [negb]; mproj.
  { intros [= <- <-]. reflexivity. }
  destruct (ActivityQueue.front Q) as [e |] eqn:Hf; [| discriminate]. mproj.
  destruct (Event.getDeliveryTime e <=? currentSimCycle s) eqn:Hd; mproj.
  - rewrite HQ. intros [= <- <-].
    exists L, p, P, q, Q. apply Z.leb_le in Hd. repeat split; assumption.
  - intros [= <- <-]. reflexivity.
Qed.

Lemma recv_safety_witness :
  exists s1 s2 e,
    (setPolling 1 ;; setPolling 2 ;;
     finalizeConfiguration 2 1 ;; finalizeConfiguration 2 2 ;;
     send_impl 1 3 (Some user_event) ;; clock_at 4) boot = Ok tt s1 /\
    recv 2 s1 = Ok (Some e) s2 /\
    Event.getDeliveryTime e <= currentSimCycle s1.
Proof.
  eexists.
  match goal with
  | |- exists s2 e, ?c boot = Ok tt ?s1 /\ _ =>
      assert (H0 : c boot = Ok tt s1) by (vm_compute; reflexivity)
  end.
  match type of H0 with
  | _ = Ok tt ?s1 =>
      assert (Hr : recv 2 s1 =
                   Ok (Some (Event.setDeliveryInfo 5 0
                               (Event.setDeliveryTime 4 user_event)))
                      (with_queues
                         (<[102 := Live (ActivityQueue.PollingLinkQueue [])]>
                            (queues s1)) s1))
        by (vm_compute; reflexivity);
      pose proof (recv_safety s1 _ 2 _ Hr) as Hsafe
  end.
  destruct Hsafe as (L & p & P & q & Q & _ & _ & _ & _ & _ & _ & _ & Hd & _).
  eexists. eexists. split; [exact H0 |]. split; [exact Hr |]. exact Hd.
Defined.

(** X11.  The timed round trip between polling links: an event sent on
    [L] into the empty polling queue that [L]'s [send_queue] points at is
    returned by [recv()] of a polling link paired with [L] exactly when
    the clock has reached its delivery time, t0 + d + latency; until
    then [recv()] returns null and changes nothing, and after the event
    has been returned [recv()] returns null again. *)
Theorem send_recv_round_trip (s : Simulation) (this peer q : loc)
    (L P : Link) (d : Z) (e : Event.t) :
  links s !! this = Some L ->
  mode L = RUN ->
  send_queue L = Some q ->
  queues s !! q = Some (Live (ActivityQueue.PollingLinkQueue [])) ->
  links s !! peer = Some P ->
  type P = POLL ->
  pair_link P = Some this ->
  exists s1 ev,
    send_impl this d (Some e) s = Ok tt s1 /\
    Event.getDeliveryTime ev = wrap64 (currentSimCycle s + d + latency L) /\
    Event.same_object e ev /\
    forall now,
      (Event.getDeliveryTime ev <= now ->
       exists s3,
         recv peer (with_currentSimCycle now s1) = Ok (Some ev) s3 /\
         recv peer s3 = Ok None s3) /\
      (now < Event.getDeliveryTime ev ->
       recv peer (with_currentSimCycle now s1)
         = Ok None (with_currentSimCycle now s1)).
Proof.
  intros HL Hm Hq HQ HP HtP Hpair.
  pose proof (send_impl_run s this q L _ d (Some e) HL Hm Hq HQ) as Hrun.
  cbv zeta in Hrun.
  set (ev := Event.setDeliveryInfo (tag L) (delivery_info L)
               (Event.setDeliveryTime
                  (wrap64 (currentSimCycle s + wrap64 d + latency L)) e))
    in *.
  destruct (stamp_spec (tag L) (delivery_info L)
              (wrap64 (currentSimCycle s + wrap64 d + latency L)) e)
    as (Htime & _ & Hprio & _ & Hcls).
  fold ev in Htime, Hprio, Hcls.
  rewrite wrap64_idem, wrap64_add_inner in Htime.
  cbn [ActivityQueue.insert app] in Hrun.
  destruct (profile_tools L) as [tools |];
    (eexists; exists ev;
     split; [exact Hrun |]; split; [exact Htime |];
     split; [split; assumption |];
     intros now; split;
     [ intros Hready; apply Z.leb_le in Hready; eexists; split;
       [ unfold recv; msimp;
         cbn [ActivityQueue.empty ActivityQueue.data ActivityQueue.front
              ActivityQueue.pop ActivityQueue.with_data negb head tail];
         mproj; rewrite Hready; msimp; reflexivity
       | unfold recv; msimp; reflexivity ]
     | intros Hlate; apply Z.leb_gt in Hlate;
       unfold recv; msimp;
       cbn [ActivityQueue.empty ActivityQueue.data ActivityQueue.front
            negb head];
       mproj; rewrite Hlate; reflexivity ]).
Qed.

Lemma send_recv_round_trip_witness :
  exists s0 s1 ev s3,
    (setPolling 1 ;; setPolling 2 ;;
     finalizeConfiguration 2 1 ;; finalizeConfiguration 2 2) boot
      = Ok tt s0 /\
    send_impl 1 3 (Some user_event) s0 = Ok tt s1 /\
    Event.getDeliveryTime ev = 4 /\
    recv 2 (with_currentSimCycle 3 s1) = Ok None (with_currentSimCycle 3 s1) /\
    recv 2 (with_currentSimCycle 4 s1) = Ok (Some ev) s3 /\
    recv 2 s3 = Ok None s3.
Proof.
  eexists.
  match goal with
  | |- exists s1 ev s3, ?c boot = Ok tt ?s0 /\ _ =>
      assert (H0 : c boot = Ok tt s0) by (vm_compute; reflexivity)
  end.
  match type of H0 with
  | _ = Ok tt ?s0 =>
      assert (H1 : links s0 !! 1 =
                   Some (mkLink (Some 102) 0 0 1 (Some 2) POLL RUN 5 None))
        by (vm_compute; reflexivity);
      assert (H2 : links s0 !! 2 =
                   Some (mkLink (Some 101) 0 0 1 (Some 1) POLL RUN 6 None))
        by (vm_compute; reflexivity);
      assert (HQ : queues s0 !! 102 =
                   Some (Live (ActivityQueue.PollingLinkQueue [])))
        by (vm_compute; reflexivity);
      destruct (send_recv_round_trip s0 1 2 102 _ _ 3 user_event
                  H1 eq_refl eq_refl HQ H2 eq_refl eq_refl)
        as (s1 & ev & Hs & Ht & _ & Hrecv)
  end.
  assert (Ht4 : Event.getDeliveryTime ev = 4) by exact Ht.
  destruct (Hrecv 3) as [_ Hlate].
  destruct (Hrecv 4) as [Hready _].
  destruct Hready as (s3 & Hr1 & Hr2); [rewrite Ht4; lia |].
  exists s1, ev, s3.
  split; [exact H0 |]. split; [exact Hs |]. split; [exact Ht4 |].
  split; [apply Hlate; rewrite Ht4; lia |].
  split; assumption.
Defined.

(* ===================================================================== *)
(** ** More on the untimed exchange *)
(* ===================================================================== *)

(** X12.  The phase violation of the untimed send: in the Run phase
    [sendUntimedData] ends in a fatal error before it has made a queue,
    counted the message or touched the event, for an event as for a null
    pointer. *)
Theorem sendUntimedData_phase_violation (s : Simulation) (this : loc)
    (L : Link) (data : option Event.t) :
  links s !! this = Some L ->
  mode L = RUN ->
  sendUntimedData this data s = Fatal UntimedDuringRun s.
Proof. apply sendUntimedData_in_run. Qed.

Lemma sendUntimedData_phase_violation_witness :
  sendUntimedData 1 (Some user_event) running_handlers
    = Fatal UntimedDuringRun running_handlers.
Proof.
  assert (H1 : links running_handlers !! 1 =
               Some (mkLink (Some 100) 600 0 2 (Some 2) HANDLER RUN 5 None))
    by (vm_compute; reflexivity).
  apply (sendUntimedData_phase_violation running_handlers 1 _ _ H1).
  reflexivity.
Defined.

(** X13.  [recvUntimedData()] hands out only what is due, and has no
    fatal error: when it returns an event, the event was at the front of
    the queue that the pair's [send_queue] points at, its delivery time
    is not later than [untimed_phase], and the state differs only in
    that queue having been popped; when it returns null (as it does when
    the pair has no queue) the state is the one the call was made in. *)
Theorem recvUntimedData_safety (s : Simulation) (this : loc) :
  (forall e s', recvUntimedData this s <> Fatal e s') /\
  (forall r s',
      recvUntimedData this s = Ok r s' ->
      match r with
      | Some e =>
          exists L p P q Q,
            links s !! this = Some L /\
            pair_link L = Some p /\ links s !! p = Some P /\
            send_queue P = Some q /\ queues s !! q = Some (Live Q) /\
            ActivityQueue.front Q = Some e /\
            Event.getDeliveryTime e <= untimed_phase s /\
            s' = with_queues (<[q := Live (ActivityQueue.pop Q)]> (queues s)) s
      | None => s' = s
      end) /\
  (forall L p P,
      links s !! this = Some L -> pair_link L = Some p ->
      links s !! p = Some P -> send_queue P = None ->
      recvUntimedData this s = Ok None s).
Proof.
  split; [| split].
  - intros e s'. unfold recvUntimedData. munfold. mproj.
    destruct (links s !! this) as [L |]; [| discriminate]. mproj.
    destruct (pair_link L) as [p |]; [| discriminate]. mproj.
    destruct (links s !! p) as [P |]; [| discriminate]. mproj.
    destruct (send_queue P) as [q |]; [| discriminate]. mproj.
    destruct (queues s !! q) as [[Q |] |] eqn:HQ; try discriminate. mproj.
    destruct (ActivityQueue.empty Q); cbn [negb]; mproj; [discriminate |].
    destruct (ActivityQueue.front Q) as [a |]; [| discriminate]. mproj.
    destruct (Event.getDeliveryTime a <=? untimed_phase s); mproj;
      [rewrite HQ |]; discriminate.
  - intros r s'. unfold recvUntimedData. munfold. mproj.
    destruct (links s !! this) as [L |] eqn:HL; [| discriminate]. mproj.
    destruct (pair_link L) as [p |] eqn:Hp; [| discriminate]. mproj.
    destruct (links s !! p) as [P |] eqn:HP; [| discriminate]. mproj.
    destruct (send_queue P) as [q |] eqn:Hq; mproj;
      [| intros [= <- <-]; reflexivity].
    destruct (queues s !! q) as [[Q |] |] eqn:HQ; try discriminate. mproj.
    destruct (ActivityQueue.empty Q) eqn:He; cbn [negb]; mproj.
    { intros [= <- <-]. reflexivity. }
    destruct (ActivityQueue.front Q) as [e |] eqn:Hf; [| discriminate]. mproj.
    destruct (Event.getDeliveryTime e <=? untimed_phase s) eqn:Hd; mproj.
    + rewrite HQ. intros [= <- <-].
      exists L, p, P, q, Q. apply Z.leb_le in Hd. repeat split; assumption.
    + intros [= <- <-]. reflexivity.
  - intros L p P HL Hp HP Hq. unfold recvUntimedData. msimp; try reflexivity.
Qed.

(** X14.  [sendUntimedData_sync] puts the event into the link's init
    queue as it is: it makes the queue when the link has none, and it
    neither stamps the event, nor counts it in [untimed_msg_count], nor
    looks at the mode of the link. *)
Theorem sendUntimedData_sync_as_is (s : Simulation) (this : loc) (L : Link)
    (data : Event.t) :
  links s !! this = Some L ->
  (send_queue L = None ->
   exists s' q,
     sendUntimedData_sync this data s = Ok tt s' /\
     queues s !! q = None /\
     (send_queue <$> links s' !! this) = Some (Some q) /\
     queues s' !! q = Some (Live (ActivityQueue.InitQueue [data])) /\
     untimed_msg_count s' = untimed_msg_count s) /\
  (forall q d,
      send_queue L = Some q ->
      queues s !! q = Some (Live (ActivityQueue.InitQueue d)) ->
      sendUntimedData_sync this data s =
        Ok tt (with_queues
                 (<[q := Live (ActivityQueue.InitQueue (d ++ [data]))]>
                    (queues s)) s)).
Proof.
  intros HL. split.
  - intros Hq.
    pose proof (fresh_queue_None (queues s)) as Hfresh.
    set (q := fresh (dom (queues s))) in *.
    eexists. exists q. split.
    + unfold sendUntimedData_sync. msimp. fold q. msimp; try reflexivity.
    + mproj. rewrite !lookup_insert_eq. repeat split. exact Hfresh.
  - intros q d Hq HQ. unfold sendUntimedData_sync. msimp; try reflexivity.
Qed.

Lemma sendUntimedData_sync_as_is_witness :
  exists s' q,
    sendUntimedData_sync 1 user_event boot = Ok tt s' /\
    queues s' !! q = Some (Live (ActivityQueue.InitQueue [user_event])) /\
    untimed_msg_count s' = 0.
Proof.
  assert (H1 : links boot !! 1 = Some (set_pair_link (Some 2) (Link_of_tag 5)))
    by (vm_compute; reflexivity).
  destruct (proj1 (sendUntimedData_sync_as_is boot 1 _ user_event H1) eq_refl)
    as (s' & q & Hs & _ & _ & HQ & Hn).
  exists s', q. split; [exact Hs |]. split; [exact HQ |]. exact Hn.
Defined.

(* ===================================================================== *)
(** ** Latency, time base and profile tools *)
(* ===================================================================== *)

Lemma wrap64_mul_inner (x y : Z) : wrap64 (wrap64 x * wrap64 y) = wrap64 (x * y).
Proof. unfold wrap64. symmetry. apply Z.mul_mod. lia. Qed.

Lemma wrap64_add_l (x y : Z) : wrap64 (wrap64 x + y) = wrap64 (x + y).
Proof. unfold wrap64. apply Z.add_mod_idemp_l. lia. Qed.

Lemma wrap64_add_r (x y : Z) : wrap64 (x + wrap64 y) = wrap64 (x + y).
Proof. unfold wrap64. apply Z.add_mod_idemp_r. lia. Qed.


Lemma add_latency_add (a b : Z) (L : Link) :
  add_latency b (add_latency a L) = set_latency (latency L + a + b) L.
Proof.
  unfold add_latency, set_latency. mproj. f_equal.
  unfold wrap64. rewrite Z.add_mod_idemp_l by lia. reflexivity.
Qed.

Lemma set_latency_same (L : Link) :
  0 <= latency L < 2 ^ 64 -> set_latency (latency L) L = L.
Proof.
  intros H. destruct L. unfold set_latency. mproj.
  rewrite wrap64_small by assumption. reflexivity.
Qed.

(** X15.  Send latency adds up, in 64-bit arithmetic, over calls of
    [addSendLatency(cycles, timebase)], whose [cycles] is an [int]: the
    latency after two calls is the latency before plus cycles1 * tb1 +
    cycles2 * tb2 modulo 2^64, so that adding [-n] cycles takes back
    what adding [n] cycles of the same time base gave. *)
Theorem addSendLatency_adds_up (s : Simulation) (this : loc) (L : Link)
    (c1 c2 tb1 tb2 n tb : Z) :
  links s !! this = Some L ->
  0 <= latency L < 2 ^ 64 ->
  - 2 ^ 31 < n < 2 ^ 31 ->
  (addSendLatency this c1 tb1 ;; addSendLatency this c2 tb2) s =
    Ok tt (with_links
             (<[this := set_latency
                          (latency L + to_int32 c1 * tb1 + to_int32 c2 * tb2)
                          L]> (links s)) s) /\
  (addSendLatency this n tb ;; addSendLatency this (- n) tb) s =
    Ok tt (with_links (<[this := L]> (links s)) s).
Proof.
  intros HL Hlat Hn.
  assert (Hgen : forall a b ta tb',
             (addSendLatency this a ta ;; addSendLatency this b tb') s =
               Ok tt (with_links
                        (<[this := set_latency
                                     (latency L + to_int32 a * ta
                                      + to_int32 b * tb') L]> (links s)) s)).
  { intros a b ta tb'. unfold addSendLatency. msimp.
    f_equal. unfold with_links. mproj. f_equal.
    rewrite insert_insert_eq. f_equal.
    rewrite add_latency_add. unfold set_latency. f_equal.
    rewrite !wrap64_mul_inner, wrap64_add_r.
    replace (latency L + wrap64 (to_int32 a * ta) + to_int32 b * tb')
      with (wrap64 (to_int32 a * ta) + (latency L + to_int32 b * tb')) by lia.
    rewrite wrap64_add_l. f_equal. lia. }
  split; [apply Hgen |].
  rewrite Hgen. do 3 f_equal.
  rewrite !to_int32_small by lia.
  replace (latency L + n * tb + - n * tb) with (latency L) by lia.
  apply set_latency_same. exact Hlat.
Qed.

Lemma addSendLatency_adds_up_witness :
  exists s',
    (addSendLatency 1 5 1000 ;; addSendLatency 1 (-5) 1000) boot = Ok tt s' /\
    (latency <$> links s' !! 1) = Some 1.
Proof.
  assert (H1 : links boot !! 1 = Some (set_pair_link (Some 2) (Link_of_tag 5)))
    by (vm_compute; reflexivity).
  destruct (addSendLatency_adds_up boot 1 _ 0 0 0 0 5 1000 H1) as [_ H];
    [vm_compute; split; congruence | lia |].
  eexists. split; [exact H |]. mproj. rewrite lookup_insert_eq. reflexivity.
Defined.



(** X17.  The default time base is read back as it was set, except that
    a converter whose factor is 0 is read back as no converter, as is a
    null pointer; a link fresh from its constructor has none. *)
Theorem defaultTimeBase_round_trip (s : Simulation) (this : loc) (L : Link)
    (tc : option Z) :
  links s !! this = Some L ->
  (exists s',
      (setDefaultTimeBase this tc ;; getDefaultTimeBase this) s
        = Ok match tc with
             | Some factor =>
                 if decide (wrap64 factor = 0) then None
                 else Some (wrap64 factor)
             | None => None
             end s' /\
      forall l, l <> this -> links s' !! l = links s !! l) /\
  (defaultTimeBase L = defaultTimeBase Link_default ->
   getDefaultTimeBase this s = Ok None s).
Proof.
  intros HL. split.
  - destruct tc as [factor |].
    + destruct (decide (wrap64 factor = 0)) as [H0 | H0];
        (eexists; split;
         [ unfold setDefaultTimeBase, getDefaultTimeBase; msimp; reflexivity
         | intros l Hl; mproj; apply lookup_insert_ne; congruence ]).
    + eexists. split.
      * unfold setDefaultTimeBase, getDefaultTimeBase. msimp; try reflexivity.
      * intros l Hl. mproj. apply lookup_insert_ne. congruence.
  - intros Hd. cbn [Link_default defaultTimeBase] in Hd.
    unfold getDefaultTimeBase. msimp; try reflexivity.
Qed.

Lemma defaultTimeBase_round_trip_witness :
  exists s',
    (setDefaultTimeBase 1 (Some 1000) ;; getDefaultTimeBase 1) boot
      = Ok (Some 1000) s' /\
    getDefaultTimeBase 1 boot = Ok None boot.
Proof.
  assert (H1 : links boot !! 1 = Some (set_pair_link (Some 2) (Link_of_tag 5)))
    by (vm_compute; reflexivity).
  destruct (defaultTimeBase_round_trip boot 1 _ (Some 1000) H1)
    as [(s' & Hs & _) Hnone].
  exists s'. split; [exact Hs |]. apply Hnone. reflexivity.
Defined.

(** The state [addProfileTool] returns in. *)
Lemma addProfileTool_Ok (s : Simulation) (this : loc) (L : Link)
    (tool key : Z) :
  links s !! this = Some L ->
  addProfileTool this tool key s =
    Ok tt (with_links
             (<[this := set_profile_tools
                          (Some (match profile_tools L with
                                 | Some ts => ts
                                 | None => []
                                 end ++ [(tool, key)])) L]> (links s)) s).
Proof.
  intros HL. destruct (profile_tools L) as [ts |] eqn:Hts.
  - unfold addProfileTool, set_profile_tools. msimp.
    rewrite ?Hts. msimp. reflexivity.
  - unfold addProfileTool, set_profile_tools. msimp.
    rewrite ?Hts. msimp.
    f_equal. unfold with_links. mproj. f_equal. apply insert_insert_eq.
Qed.

(** X18.  Profile tools are told of every timed send, once each and in
    the order in which they were added: after [addProfileTool] on a
    link, a send on it adds to the record of calls one entry for each
    tool the link had, then one for the new tool, all with the event as
    the link has stamped it; nothing else in the record changes. *)
Theorem profile_tools_notified (s : Simulation) (this q : loc) (L : Link)
    (Q : ActivityQueue.t) (tool key d : Z) (event : option Event.t) :
  links s !! this = Some L ->
  mode L = RUN ->
  send_queue L = Some q ->
  queues s !! q = Some (Live Q) ->
  let tools := match profile_tools L with Some ts => ts | None => [] end in
  let ev := Event.setDeliveryInfo (tag L) (delivery_info L)
              (Event.setDeliveryTime
                 (wrap64 (currentSimCycle s + d + latency L))
                 (match event with
                  | None => Event.new Event.NullEvent
                  | Some e => e
                  end)) in
  exists s',
    (addProfileTool this tool key ;; send_impl this d event) s = Ok tt s' /\
    (profile_tools <$> links s' !! this)
      = Some (Some (tools ++ [(tool, key)])) /\
    profile_log s' =
      profile_log s ++
      map (fun x => (fst x, snd x, ev)) (tools ++ [(tool, key)]).
Proof.
  intros HL Hm Hq HQ tools ev.
  set (L2 := set_profile_tools (Some (tools ++ [(tool, key)])) L).
  assert (Hadd : exists m,
             addProfileTool this tool key s = Ok tt (with_links m s) /\
             m !! this = Some L2).
  { eexists. split; [apply (addProfileTool_Ok s this L tool key HL) |].
    apply lookup_insert_eq. }
  destruct Hadd as (m & Hadd & Hthis).
  pose proof (send_impl_run (with_links m s) this q L2 Q d event Hthis
                Hm Hq HQ) as Hsend.
  cbv zeta in Hsend. mproj.
  unfold bind at 1. rewrite Hadd, Hsend.
  assert (Hpt : profile_tools L2 = Some (tools ++ [(tool, key)]))
    by reflexivity.
  rewrite Hpt.
  eexists. split; [reflexivity |]. mproj.
  split; [rewrite Hthis; reflexivity |].
  unfold ev. rewrite <- (wrap64_add_inner (currentSimCycle s) d (latency L)).
  reflexivity.
Qed.

Lemma profile_tools_notified_witness :
  exists s',
    (addProfileTool 1 7 8 ;; send_impl 1 3 (Some user_event)) running_handlers
      = Ok tt s' /\
    profile_log s' =
      [(7, 8, Event.setDeliveryInfo 5 600 (Event.setDeliveryTime 15 user_event))].
Proof.
  assert (H1 : links running_handlers !! 1 =
               Some (mkLink (Some 100) 600 0 2 (Some 2) HANDLER RUN 5 None))
    by (vm_compute; reflexivity).
  assert (HQ : queues running_handlers !! 100 =
               Some (Live (ActivityQueue.TimeVortex [] 0)))
    by (vm_compute; reflexivity).
  destruct (profile_tools_notified running_handlers 1 100 _ _ 7 8 3
              (Some user_event) H1 eq_refl eq_refl HQ)
    as (s' & Hs & _ & Hlog).
  exists s'. split; [exact Hs | exact Hlog].
Defined.

(* ===================================================================== *)
(** ** What a member function leaves as it was *)
(* ===================================================================== *)

Lemma preserves_bind {A B X : Type} (obs : Simulation -> X) (c : M A)
    (k : A -> M B) :
  preserves obs c -> (forall a, preserves obs (k a)) ->
  preserves obs (bind c k).
Proof.
  intros Hc Hk s b s'. unfold bind.
  destruct (c s) as [a s1 | | |] eqn:Hcs; try discriminate.
  intros Hks. rewrite (Hk a s1 b s' Hks). exact (Hc s a s1 Hcs).
Qed.

Lemma preserves_ret {A X : Type} (obs : Simulation -> X) (a : A) :
  preserves obs (ret a).
Proof. intros s a' s' [= _ <-]. reflexivity. Qed.

Lemma preserves_fatal {A X : Type} (obs : Simulation -> X) (e : FatalError) :
  preserves obs (@fatal A e).
Proof. intros s a s' H. discriminate H. Qed.

Lemma preserves_undefined {A X : Type} (obs : Simulation -> X) (u : UB) :
  preserves obs (@undefined A u).
Proof. intros s a s' H. discriminate H. Qed.

Lemma preserves_no_fuel {A X : Type} (obs : Simulation -> X) :
  preserves obs (fun _ : Simulation => @OutOfFuel A).
Proof. intros s a s' H. discriminate H. Qed.

Lemma preserves_load_link {X : Type} (obs : Simulation -> X) (l : loc) :
  preserves obs (load_link l).
Proof.
  intros s a s'. unfold load_link.
  destruct (links s !! l); intros [= _ <-] || discriminate. reflexivity.
Qed.

Lemma preserves_deref {A X : Type} (obs : Simulation -> X) (p : option A) :
  preserves obs (deref p).
Proof. destruct p; [apply preserves_ret | apply preserves_undefined]. Qed.

Lemma preserves_load_queue {X : Type} (obs : Simulation -> X) (q : loc) :
  preserves obs (load_queue q).
Proof.
  intros s a s'. unfold load_queue.
  destruct (queues s !! q) as [[Q |] |]; intros [= _ <-] || discriminate.
  reflexivity.
Qed.

Lemma preserves_getSimulation {X : Type} (obs : Simulation -> X) :
  preserves obs getSimulation.
Proof. intros s a s' [= _ <-]. reflexivity. Qed.

(** Writing a queue, a new queue and the end of a queue change no link
    and tell no profile tool. *)
Lemma preserves_store_queue {X : Type} (obs : Simulation -> X) (q : loc)
    (Q : ActivityQueue.t) :
  (forall m s, obs (with_queues m s) = obs s) ->
  preserves obs (store_queue q Q).
Proof.
  intros Hobs s a s'. unfold store_queue.
  destruct (queues s !! q) as [[Q' |] |]; intros [= _ <-] || discriminate.
  apply Hobs.
Qed.

Lemma preserves_new_queue {X : Type} (obs : Simulation -> X)
    (Q : ActivityQueue.t) :
  (forall m s, obs (with_queues m s) = obs s) ->
  preserves obs (new_queue Q).
Proof. intros Hobs s a s' [= _ <-]. apply Hobs. Qed.

Lemma preserves_delete_queue {X : Type} (obs : Simulation -> X)
    (p : option loc) :
  (forall m s, obs (with_queues m s) = obs s) ->
  preserves obs (delete_queue p).
Proof.
  intros Hobs. destruct p as [q |]; [| apply preserves_ret].
  intros s a s'. unfold delete_queue.
  destruct (queues s !! q) as [[Q' |] |]; intros [= _ <-] || discriminate.
  apply Hobs.
Qed.

Lemma profile_log_store_link (l : loc) (f : Link -> Link) :
  preserves profile_log (store_link l f).
Proof.
  intros s a s'. unfold store_link.
  destruct (links s !! l); intros [= _ <-] || discriminate. reflexivity.
Qed.

Lemma configurations_store_link (l : loc) (f : Link -> Link) :
  (forall L, configuration (f L) = configuration L) ->
  preserves configurations (store_link l f).
Proof.
  intros Hf s a s'. unfold store_link.
  destruct (links s !! l) as [L |] eqn:HL; intros [= _ <-] || discriminate.
  unfold configurations. cbn [links with_links].
  rewrite fmap_insert, Hf. apply insert_id.
  rewrite lookup_fmap, HL. reflexivity.
Qed.

Lemma configurations_eventSent (tools : list (Z * Z)) (ev : Event.t) :
  preserves configurations (eventSent tools ev).
Proof. intros s a s' [= _ <-]. reflexivity. Qed.

Lemma configurations_untimed_msg_count :
  preserves configurations
    (fun s => Ok tt (with_untimed_msg_count (untimed_msg_count s + 1) s)).
Proof. intros s a s' [= _ <-]. reflexivity. Qed.

Lemma profile_log_untimed_msg_count :
  preserves profile_log
    (fun s => Ok tt (with_untimed_msg_count (untimed_msg_count s + 1) s)).
Proof. intros s a s' [= _ <-]. reflexivity. Qed.

Ltac frame :=
  repeat first
    [ apply preserves_bind; [| intros ?]
    | apply preserves_ret
    | apply preserves_fatal
    | apply preserves_undefined
    | apply preserves_no_fuel
    | apply preserves_load_link
    | apply preserves_deref
    | apply preserves_load_queue
    | apply preserves_getSimulation
    | apply preserves_store_queue; reflexivity
    | apply preserves_new_queue; reflexivity
    | apply preserves_delete_queue; reflexivity
    | apply profile_log_store_link
    | apply configurations_store_link; reflexivity
    | apply configurations_eventSent
    | apply configurations_untimed_msg_count
    | apply profile_log_untimed_msg_count
    | assumption
    | case_decide
    | match goal with
      | |- preserves _ (match ?x with _ => _ end) => destruct x
      end ].

(** X19.  The untimed sends tell no profile tool: whenever
    [sendUntimedData], [sendUntimedData_sync] or [recvUntimedData]
    returns, and whenever [recv] does, the record of calls to profile
    tools is what it was. *)
Theorem only_send_is_profiled (this : loc) (data : option Event.t)
    (ev : Event.t) :
  preserves profile_log (sendUntimedData this data) /\
  preserves profile_log (sendUntimedData_sync this ev) /\
  preserves profile_log (recvUntimedData this) /\
  preserves profile_log (recv this).
Proof.
  repeat split.
  - unfold sendUntimedData. frame.
  - unfold sendUntimedData_sync. frame.
  - unfold recvUntimedData. frame.
  - unfold recv. frame.
Qed.

Lemma finalizeConfiguration_configurations (fuel : nat) (this : loc) :
  preserves configurations (finalizeConfiguration fuel this).
Proof.
  revert this. induction fuel as [| fuel IH]; intros this;
    cbn [finalizeConfiguration]; frame.
  apply IH.
Qed.

Lemma prepareForComplete_configurations (fuel : nat) (this : loc) :
  preserves configurations (prepareForComplete fuel this).
Proof.
  revert this. induction fuel as [| fuel IH]; intros this;
    cbn [prepareForComplete]; frame.
  apply IH.
Qed.

(** X20.  Nothing that moves a link through its life or moves events
    touches the configuration of a link: whenever
    [finalizeConfiguration], [prepareForComplete], [send_impl], [recv],
    [sendUntimedData], [sendUntimedData_sync] or [recvUntimedData]
    returns, every link that was there is there, no link has appeared,
    and each has the kind, latency, tag, delivery information, pair,
    time base and profile tools it had; only [mode] and [send_queue]
    may differ. *)
Theorem configuration_kept (fuel : nat) (this : loc) (delay : Z)
    (event : option Event.t) (ev : Event.t) :
  preserves configurations (finalizeConfiguration fuel this) /\
  preserves configurations (prepareForComplete fuel this) /\
  preserves configurations (send_impl this delay event) /\
  preserves configurations (recv this) /\
  preserves configurations (sendUntimedData this event) /\
  preserves configurations (sendUntimedData_sync this ev) /\
  preserves configurations (recvUntimedData this).
Proof.
  split; [apply finalizeConfiguration_configurations |].
  split; [apply prepareForComplete_configurations |].
  repeat split.
  - unfold send_impl. frame.
  - unfold recv. frame.
  - unfold sendUntimedData. frame.
  - unfold sendUntimedData_sync. frame.
  - unfold recvUntimedData. frame.
Qed.
(* ===================================================================== *)
(** ** The destructor *)
(* ===================================================================== *)

Lemma delete_Link_dangling (s : Simulation) (this : loc) (fuel : nat) :
  links s !! this = None ->
  delete_Link (S fuel) this s = Undefined DanglingPointer.
Proof. intros HL. cbn [delete_Link]. msimp. reflexivity. Qed.

(** The destructor of a link that has no pair, or is its own pair. *)
Lemma delete_Link_alone (s : Simulation) (this : loc) (L : Link)
    (fuel : nat) :
  links s !! this = Some L ->
  pair_link L = None \/ pair_link L = Some this ->
  delete_Link (S fuel) this s = Ok tt (with_links (delete this (links s)) s).
Proof.
  intros HL Hp. cbn [delete_Link]. unfold free_link. munfold. mproj.
  rewrite HL. mproj.
  destruct (decide (pair_link L <> None /\ pair_link L <> Some this))
    as [[H1 H2] | _]; [destruct Hp; congruence |].
  mproj. rewrite HL. reflexivity.
Qed.

Lemma delete_Link_dangling_pair (s : Simulation) (this p : loc) (L : Link)
    (fuel : nat) :
  links s !! this = Some L ->
  pair_link L = Some p ->
  p <> this ->
  links s !! p = None ->
  delete_Link (S fuel) this s = Undefined DanglingPointer.
Proof.
  intros HL Hp Hne HP. cbn [delete_Link]. munfold. mproj.
  rewrite HL. mproj.
  destruct (decide (pair_link L <> None /\ pair_link L <> Some this))
    as [_ | H]; [| exfalso; apply H; split; congruence].
  rewrite Hp. mproj. rewrite HP. reflexivity.
Qed.

Lemma delete_Link_pair (s : Simulation) (this p : loc) (L P : Link)
    (fuel : nat) :
  links s !! this = Some L ->
  pair_link L = Some p ->
  p <> this ->
  links s !! p = Some P ->
  type P <> SYNC ->
  delete_Link (S fuel) this s =
  Ok tt (with_links (delete this (<[p := set_pair_link None P]> (links s))) s).
Proof.
  intros HL Hp Hne HP Ht. cbn [delete_Link]. unfold free_link. munfold. mproj.
  rewrite HL. mproj.
  destruct (decide (pair_link L <> None /\ pair_link L <> Some this))
    as [_ | H]; [| exfalso; apply H; split; congruence].
  rewrite Hp. mproj. rewrite HP. mproj. rewrite lookup_insert_eq. mproj.
  destruct (decide (SYNC = type P)); [congruence |]. mproj.
  rewrite lookup_insert_ne by congruence. rewrite HL. reflexivity.
Qed.

Lemma delete_Link_SYNC_pair (s : Simulation) (this p : loc) (L P : Link)
    (fuel : nat) :
  links s !! this = Some L ->
  pair_link L = Some p ->
  p <> this ->
  links s !! p = Some P ->
  type P = SYNC ->
  delete_Link (S (S fuel)) this s =
  Ok tt (with_links (delete this (delete p (links s))) s).
Proof.
  intros HL Hp Hne HP Ht. remember (S fuel) as g eqn:Hg.
  cbn [delete_Link]. unfold free_link. munfold. mproj.
  rewrite HL. mproj.
  destruct (decide (pair_link L <> None /\ pair_link L <> Some this))
    as [_ | H]; [| exfalso; apply H; split; congruence].
  rewrite Hp. mproj. rewrite HP. mproj. rewrite lookup_insert_eq. mproj.
  destruct (decide (SYNC = type P)); [| congruence].
  subst g.
  erewrite delete_Link_alone;
    [| mproj; apply lookup_insert_eq | left; reflexivity].
  mproj. rewrite delete_insert_eq.
  rewrite lookup_delete_ne by congruence. rewrite HL. reflexivity.
Qed.

(** One call inside the other is as deep as the destructor goes: the
    pair has been unpaired before it is deleted. *)
Lemma delete_Link_fuel (fuel fuel' : nat) (this : loc) (s : Simulation) :
  delete_Link (S (S fuel)) this s = delete_Link (S (S fuel')) this s.
Proof.
  destruct (links s !! this) as [L |] eqn:HL;
    [| rewrite !delete_Link_dangling by assumption; reflexivity].
  destruct (pair_link L) as [p |] eqn:Hp;
    [| rewrite !(delete_Link_alone s this L) by auto; reflexivity].
  destruct (decide (p = this)) as [-> | Hne];
    [rewrite !(delete_Link_alone s this L) by auto; reflexivity |].
  destruct (links s !! p) as [P |] eqn:HP;
    [| rewrite !(delete_Link_dangling_pair s this p L) by assumption;
       reflexivity].
  destruct (decide (type P = SYNC)) as [Ht | Ht].
  - rewrite !(delete_Link_SYNC_pair s this p L P) by assumption. reflexivity.
  - rewrite !(delete_Link_pair s this p L P) by assumption. reflexivity.
Qed.

(** X21.  The destructor returns or stops on a dangling pointer, and one
    call inside the other is as deep as it goes: with room for two
    nested calls it never runs out, and more room changes nothing. *)
Theorem delete_Link_terminates (fuel : nat) (this : loc) (s : Simulation) :
  delete_Link (S (S fuel)) this s = delete_Link 2 this s /\
  ((exists s', delete_Link 2 this s = Ok tt s') \/
   delete_Link 2 this s = Undefined DanglingPointer).
Proof.
  split; [apply delete_Link_fuel |].
  destruct (links s !! this) as [L |] eqn:HL;
    [| right; apply delete_Link_dangling; assumption].
  destruct (pair_link L) as [p |] eqn:Hp;
    [| left; eexists; apply (delete_Link_alone s this L); auto].
  destruct (decide (p = this)) as [-> | Hne];
    [left; eexists; apply (delete_Link_alone s this L); auto |].
  destruct (links s !! p) as [P |] eqn:HP;
    [| right; apply (delete_Link_dangling_pair s this p L); assumption].
  destruct (decide (type P = SYNC)) as [Ht | Ht]; left; eexists.
  - apply (delete_Link_SYNC_pair s this p L P); assumption.
  - apply (delete_Link_pair s this p L P); assumption.
Qed.

(** X22.  Deleting a link unpairs its pair: a pair that is not a [SYNC]
    link stays, with a null [pair_link] and everything else it had; a
    [SYNC] pair is deleted with the link; no other link is touched and
    no queue is. *)
Theorem delete_Link_unpairs (s : Simulation) (this p : loc) (L P : Link) :
  links s !! this = Some L ->
  pair_link L = Some p ->
  p <> this ->
  links s !! p = Some P ->
  exists s',
    delete_Link 2 this s = Ok tt s' /\
    links s' !! this = None /\
    links s' !! p =
      (if decide (type P = SYNC) then None
       else Some (set_pair_link None P)) /\
    (forall l, l <> this -> l <> p -> links s' !! l = links s !! l) /\
    queues s' = queues s.
Proof.
  intros HL Hp Hne HP.
  destruct (decide (type P = SYNC)) as [Ht | Ht]; eexists.
  - split; [apply (delete_Link_SYNC_pair s this p L P); assumption |].
    mproj. split; [apply lookup_delete_eq |].
    split; [rewrite lookup_delete_ne by congruence; apply lookup_delete_eq |].
    split; [| reflexivity].
    intros l H1 H2. rewrite !lookup_delete_ne by congruence. reflexivity.
  - split; [apply (delete_Link_pair s this p L P); assumption |].
    mproj. split; [apply lookup_delete_eq |].
    split; [rewrite lookup_delete_ne by congruence; apply lookup_insert_eq |].
    split; [| reflexivity].
    intros l H1 H2. rewrite lookup_delete_ne by congruence.
    rewrite lookup_insert_ne by congruence. reflexivity.
Qed.

Lemma delete_Link_unpairs_witness :
  exists s',
    delete_Link 2 1 boot = Ok tt s' /\
    links s' !! 1 = None /\
    links s' !! 2 = Some (Link_of_tag 6).
Proof.
  assert (H1 : links boot !! 1 = Some (set_pair_link (Some 2) (Link_of_tag 5)))
    by (vm_compute; reflexivity).
  assert (H2 : links boot !! 2 = Some (set_pair_link (Some 1) (Link_of_tag 6)))
    by (vm_compute; reflexivity).
  destruct (delete_Link_unpairs boot 1 2 _ _ H1 eq_refl ltac:(lia) H2)
    as (s' & Hs & Hthis & Hpair & _).
  exists s'. repeat split; assumption.
Defined.

(** X23.  The two ends of a connection can be deleted one after the
    other when neither is a [SYNC] link: the second destructor finds a
    null [pair_link] and both links are gone.  When the pair is a [SYNC]
    link the first destructor has deleted it already, and deleting it
    again is a use of a dangling pointer. *)
Theorem delete_both_ends (s : Simulation) (this p : loc) (L P : Link) :
  links s !! this = Some L ->
  pair_link L = Some p ->
  p <> this ->
  links s !! p = Some P ->
  (delete_Link 2 this ;; delete_Link 2 p) s =
  if decide (type P = SYNC) then Undefined DanglingPointer
  else Ok tt (with_links (delete p (delete this (links s))) s).
Proof.
  intros HL Hp Hne HP. unfold bind.
  destruct (decide (type P = SYNC)) as [Ht | Ht].
  - rewrite (delete_Link_SYNC_pair s this p L P) by assumption.
    apply delete_Link_dangling. mproj.
    rewrite lookup_delete_ne by congruence. apply lookup_delete_eq.
  - rewrite (delete_Link_pair s this p L P) by assumption.
    erewrite delete_Link_alone;
      [| mproj; rewrite lookup_delete_ne by congruence;
         apply lookup_insert_eq
       | left; reflexivity].
    mproj. unfold with_links. mproj. f_equal. f_equal.
    rewrite (delete_insert_ne (links s)) by congruence.
    apply delete_insert_eq.
Qed.

Lemma delete_both_ends_witness :
  (delete_Link 2 1 ;; delete_Link 2 2) boot =
  Ok tt (with_links (delete 2 (delete 1 (links boot))) boot).
Proof.
  assert (H1 : links boot !! 1 = Some (set_pair_link (Some 2) (Link_of_tag 5)))
    by (vm_compute; reflexivity).
  assert (H2 : links boot !! 2 = Some (set_pair_link (Some 1) (Link_of_tag 6)))
    by (vm_compute; reflexivity).
  exact (delete_both_ends boot 1 2 _ _ H1 eq_refl ltac:(lia) H2).
Defined.
(* ===================================================================== *)
(** ** What [finalizeConfiguration] installs *)
(* ===================================================================== *)

(** X24.  [finalizeConfiguration] on a link that is not a [SYNC] link
    and whose pair is another, live link: the link goes to the Run phase
    and the queue it consumes from is installed in the pair's
    [send_queue]: the rank's TimeVortex for a handler link, a new, empty
    polling queue at an address never used before for a polling link;
    for a link that is neither, the pair's [send_queue] is left as it
    is.  A [SYNC] pair goes to the Run phase too, any other pair keeps
    its mode.  No other link changes, and no queue is deleted or
    written. *)
Theorem finalizeConfiguration_wires (s : Simulation) (this p : loc)
    (L P : Link) :
  links s !! this = Some L ->
  pair_link L = Some p ->
  p <> this ->
  links s !! p = Some P ->
  type L <> SYNC ->
  let q := fresh (dom (queues s)) in
  exists s',
    finalizeConfiguration 2 this s = Ok tt s' /\
    links s' !! this = Some (set_mode RUN L) /\
    links s' !! p =
      Some (set_mode (if decide (type P = SYNC) then RUN else mode P)
              (set_send_queue
                 match type L with
                 | HANDLER => Some (timeVortex s)
                 | POLL => Some q
                 | _ => send_queue P
                 end P)) /\
    (forall l, l <> this -> l <> p -> links s' !! l = links s !! l) /\
    queues s' =
      (if decide (type L = POLL)
       then <[q := Live (ActivityQueue.PollingLinkQueue [])]> (queues s)
       else queues s).
Proof.
  intros HL Hp Hne HP Ht q. subst q.
  cbn [finalizeConfiguration].
  destruct (decide (type P = SYNC)) as [HtP | HtP];
    destruct (type L) eqn:HtL; try congruence;
    destruct (send_queue P) as [q0 |] eqn:Hq0;
    msimp; eexists; (split; [reflexivity |]); mproj;
    repeat split;
    try (intros l H1 H2);
    repeat (first [ rewrite lookup_insert_eq
                  | rewrite lookup_insert_ne by congruence ]);
    try reflexivity;
    rewrite ?HP; destruct P; cbn in *; subst; reflexivity.
Qed.

Lemma finalizeConfiguration_wires_witness :
  exists s',
    finalizeConfiguration 2 1 polling_boot = Ok tt s' /\
    links s' !! 2 =
      Some (set_send_queue (Some (fresh (dom (queues polling_boot))))
              (set_type POLL (set_pair_link (Some 1) (Link_of_tag 6)))).
Proof.
  assert (H1 : links polling_boot !! 1 =
               Some (set_type POLL (set_pair_link (Some 2) (Link_of_tag 5))))
    by (vm_compute; reflexivity).
  assert (H2 : links polling_boot !! 2 =
               Some (set_type POLL (set_pair_link (Some 1) (Link_of_tag 6))))
    by (vm_compute; reflexivity).
  destruct (finalizeConfiguration_wires polling_boot 1 2 _ _
              H1 eq_refl ltac:(lia) H2 ltac:(discriminate))
    as (s' & Hs & _ & Hpair & _).
  exists s'. split; assumption.
Defined.
(** The two ends of a polling connection after both have been
    finalized: each holds in [send_queue] the new, empty queue that the
    other consumes from. *)
Lemma finalizeConfiguration_polling_pair (s : Simulation) (this p : loc)
    (L P : Link) :
  links s !! this = Some L ->
  links s !! p = Some P ->
  pair_link L = Some p ->
  pair_link P = Some this ->
  p <> this ->
  type L = POLL ->
  type P = POLL ->
  exists s2 q1 q2,
    (finalizeConfiguration 2 this ;; finalizeConfiguration 2 p) s = Ok tt s2 /\
    q1 <> q2 /\
    links s2 !! this = Some (set_send_queue (Some q2) (set_mode RUN L)) /\
    links s2 !! p = Some (set_mode RUN (set_send_queue (Some q1) P)) /\
    queues s2 !! q1 = Some (Live (ActivityQueue.PollingLinkQueue [])) /\
    queues s2 !! q2 = Some (Live (ActivityQueue.PollingLinkQueue [])) /\
    currentSimCycle s2 = currentSimCycle s.
Proof.
  intros HL HP Hp Hp' Hne HtL HtP.
  pose proof (fresh_queue_None
                (<[fresh (dom (queues s)) :=
                     Live (ActivityQueue.PollingLinkQueue [])]> (queues s)))
    as Hfresh.
  apply lookup_insert_None in Hfresh. destruct Hfresh as [_ Hq12].
  cbn [finalizeConfiguration].
  destruct (send_queue P) as [q0 |] eqn:Hq0;
    destruct (send_queue L) as [q0' |] eqn:Hq0';
    msimp; eexists; eexists; eexists;
    (split; [reflexivity |]); mproj;
    (split; [exact Hq12 |]);
    repeat split;
    repeat (first [ rewrite lookup_insert_eq
                  | rewrite lookup_insert_ne by congruence ]);
    try reflexivity.
Qed.

(** X25.  A polling connection from configuration to delivery: after
    [finalizeConfiguration] on both ends, an event sent on one end with
    delay d is what [recv()] on the other end returns once the clock has
    reached t0 + d + latency, and not before; [recv()] on the sending
    end returns null whatever the time. *)
Theorem polling_connection_delivers (s : Simulation) (this p : loc)
    (L P : Link) (d now : Z) (e : Event.t) :
  links s !! this = Some L ->
  links s !! p = Some P ->
  pair_link L = Some p ->
  pair_link P = Some this ->
  p <> this ->
  type L = POLL ->
  type P = POLL ->
  let due := wrap64 (currentSimCycle s + d + latency L) in
  exists ev,
    Event.getDeliveryTime ev = due /\
    Event.same_object e ev /\
    value_of ((finalizeConfiguration 2 this ;; finalizeConfiguration 2 p ;;
               send_impl this d (Some e) ;; clock_at now ;; recv p) s)
      = Some (if due <=? wrap64 now then Some ev else None) /\
    value_of ((finalizeConfiguration 2 this ;; finalizeConfiguration 2 p ;;
               send_impl this d (Some e) ;; clock_at now ;; recv this) s)
      = Some None.
Proof.
  intros HL HP Hp Hp' Hne HtL HtP due.
  destruct (finalizeConfiguration_polling_pair s this p L P
              HL HP Hp Hp' Hne HtL HtP)
    as (s2 & q1 & q2 & Hfin & Hq12 & HL2 & HP2 & HQ1 & HQ2 & Hclock).
  pose proof (send_impl_run s2 this q2 _ _ d (Some e) HL2 eq_refl eq_refl HQ2)
    as Hrun.
  cbv zeta in Hrun. rewrite Hclock in Hrun.
  cbn [tag delivery_info latency profile_tools set_send_queue set_mode]
    in Hrun.
  set (ev := Event.setDeliveryInfo (tag L) (delivery_info L)
               (Event.setDeliveryTime
                  (wrap64 (currentSimCycle s + wrap64 d + latency L)) e))
    in *.
  destruct (stamp_spec (tag L) (delivery_info L)
              (wrap64 (currentSimCycle s + wrap64 d + latency L)) e)
    as (Htime & _ & Hprio & _ & Hcls).
  fold ev in Htime, Hprio, Hcls.
  rewrite wrap64_idem, wrap64_add_inner in Htime. fold due in Htime.
  cbn [ActivityQueue.insert app] in Hrun.
  exists ev. split; [exact Htime |]. split; [split; assumption |].
  assert (Hbind : forall A (k : M A),
             (finalizeConfiguration 2 this ;; finalizeConfiguration 2 p ;; k) s
             = k s2).
  { intros A k. revert Hfin. unfold bind.
    destruct (finalizeConfiguration 2 this s) as [[] s1 | | |];
      try discriminate.
    destruct (finalizeConfiguration 2 p s1) as [[] s1' | | |];
      try discriminate.
    intros [= ->]. reflexivity. }
  rewrite !Hbind. unfold bind at 1 3. rewrite Hrun.
  unfold clock_at, recv.
  destruct (profile_tools L) as [tools |]; split;
    msimp;
    cbn [ActivityQueue.empty ActivityQueue.data ActivityQueue.front
         ActivityQueue.pop ActivityQueue.with_data negb head tail];
    mproj; rewrite ?Htime;
    try (destruct (due <=? wrap64 now); msimp); reflexivity.
Qed.

Lemma polling_connection_delivers_witness :
  exists ev,
    Event.getDeliveryTime ev = 4 /\
    value_of ((finalizeConfiguration 2 1 ;; finalizeConfiguration 2 2 ;;
               send_impl 1 3 (Some user_event) ;; clock_at 4 ;; recv 2)
                polling_boot)
      = Some (Some ev).
Proof.
  assert (H1 : links polling_boot !! 1 =
               Some (set_type POLL (set_pair_link (Some 2) (Link_of_tag 5))))
    by (vm_compute; reflexivity).
  assert (H2 : links polling_boot !! 2 =
               Some (set_type POLL (set_pair_link (Some 1) (Link_of_tag 6))))
    by (vm_compute; reflexivity).
  destruct (polling_connection_delivers polling_boot 1 2 _ _ 3 4 user_event
              H1 H2 eq_refl eq_refl ltac:(lia) eq_refl eq_refl)
    as (ev & Htime & _ & Hrecv & _).
  exists ev. split; assumption.
Defined.
(* ===================================================================== *)
(** ** The two overloads of the latency functions *)
(* ===================================================================== *)

(** X26.  The overloads that take a [TimeConverter] agree with the
    overloads that take an [int] and the name of a time base, for a
    number of cycles that an [int] holds and is not negative, when the
    converter multiplies by the factor that the name stands for. *)
Theorem latency_overloads_agree (s : Simulation) (this : loc) (c tb : Z)
    (convertToCoreTime : Z -> Z) :
  (forall x, convertToCoreTime x = x * tb) ->
  0 <= c < 2 ^ 31 ->
  addSendLatency_tc this c convertToCoreTime s = addSendLatency this c tb s /\
  addRecvLatency_tc this c convertToCoreTime s = addRecvLatency this c tb s.
Proof.
  intros Hconv Hc.
  assert (Hn : wrap64 (convertToCoreTime (wrap64 c))
               = wrap64 (wrap64 (to_int32 c) * wrap64 tb)).
  { rewrite Hconv, wrap64_mul_inner, to_int32_small by lia.
    rewrite (wrap64_small c) by lia. reflexivity. }
  unfold addSendLatency_tc, addSendLatency, addRecvLatency_tc, addRecvLatency.
  rewrite Hn. split; reflexivity.
Qed.

Lemma latency_overloads_agree_witness :
  addSendLatency_tc 1 3 (fun x => x * 7) boot = addSendLatency 1 3 7 boot.
Proof.
  apply (latency_overloads_agree boot 1 3 7 (fun x => x * 7)).
  - intros x. reflexivity.
  - lia.
Defined.
